(** * The three-step multi-agent signing choreography of [MultiAgentTest.tsx]

    The component keeps five pieces of React state (the log, a loading flag,
    the two relay slots and the secondary signer's address) and offers three
    asynchronous handlers, [step1_CreateTransaction], [step2_SecondSignerSign]
    and [step3_FirstSignerSubmit].  Everything else (fetching the script,
    building, encoding, signing, submitting, confirming) is done by the
    browser, the chain SDK and the wallet adapter.

    The embedding follows the handlers line by line:
    - the collaborators are parameters: the deterministic SDK functions form
      the interface [ChainSdk], what the outside world answers during one
      invocation forms a [World];
    - a handler is a computation in a small state-and-exception monad [M]
      over a [Machine]: the pending component state, the journal of calls
      made to the collaborators, and a counter of log calls;
    - a handler reads the React state through its closure, that is, through
      the state of the render it was created in ([snap]), and writes through
      the setters. *)

From Stdlib Require Import String List ZArith Bool Lia DecimalString.
From Stdlib Require Import Strings.Byte.
Import ListNotations.
Local Open Scope string_scope.

(** ** JavaScript string primitives used by the component *)

Module Js.

(** [s.startsWith(p)] *)
Definition startsWith (p s : string) : bool := String.prefix p s.

(** [s.slice(n)] *)
Definition slice (n : nat) (s : string) : string :=
  substring n (String.length s - n) s.

(** [s.substring(0, n)] *)
Definition substring0 (n : nat) (s : string) : string := substring 0 n s.

(** Truthiness of a string: only the empty string is falsy. *)
Definition truthy (s : string) : bool := negb (s =? "").

(** Template-literal rendering of a number and of a boolean. *)
Definition of_nat (n : nat) : string := NilZero.string_of_uint (Nat.to_uint n).
Definition of_bool (b : bool) : string := if b then "true" else "false".

End Js.

(** ** Values that reach a [catch] clause

    The clause is [catch (error: any)]: a rejection of [fetch], of the SDK
    or of the wallet adapter is usually an object with a [message] (an
    [Error], or a plain object such as a wallet's [{code, message}]) or a
    plain string, but a promise may also reject with [null], with
    [undefined] (as [Promise.reject()] does), with a Symbol, or with an
    object that cannot be read or converted to a string.

    The [catch] block uses a thrown value in two ways: it evaluates
    [`${error.message || error}`] and it hands the value to
    [console.error].  For the first use
    - an object is described by its [message] and by the string it converts
      to: [ErrorObj name message] converts as [Error.prototype.toString]
      does, so an object without a message that converts to [t] is
      [ErrorObj t ""];
    - a number, a boolean or a bigint has no [message] and behaves as the
      string it converts to, [ThrownString];
    - [ThrownOpaque raised] is an object on which reading [message] or the
      conversion to a string throws [raised] (for an object without a
      prototype, the [TypeError] of the conversion). *)

Inductive Thrown : Type :=
| ErrorObj (name message : string)
| ThrownString (s : string)
| ThrownNull
| ThrownUndefined
| ThrownSymbol (description : string)
| ThrownOpaque (raised : Thrown).

(** [String(error)] for an object: [Error.prototype.toString]. *)
Definition Error_toString (name message : string) : string :=
  if name =? "" then message
  else if message =? "" then name
  else name ++ ": " ++ message.

(** The result of a call that may throw (or of a promise that may reject). *)
Inductive Res (A : Type) : Type :=
| Val (a : A)
| Exn (e : Thrown).
Arguments Val {A} a.
Arguments Exn {A} e.

(** Evaluating [`${error.message || error}`]: the message when it is
    truthy, the stringified value otherwise (a string has no [message]).
    Reading [message] of [null] or [undefined] throws a [TypeError], and
    so does converting a Symbol to a string in a template literal (the
    messages are those of V8). *)
Definition error_text (e : Thrown) : Res string :=
  match e with
  | ErrorObj n m => Val (if Js.truthy m then m else Error_toString n m)
  | ThrownString s => Val s
  | ThrownNull =>
      Exn (ErrorObj "TypeError"
             "Cannot read properties of null (reading 'message')")
  | ThrownUndefined =>
      Exn (ErrorObj "TypeError"
             "Cannot read properties of undefined (reading 'message')")
  | ThrownSymbol _ =>
      Exn (ErrorObj "TypeError" "Cannot convert a Symbol value to a string")
  | ThrownOpaque raised => Exn raised
  end.

(** ** The chain SDK, as far as the component uses it

    These are the synchronous functions of [@moveindustries/ts-sdk]; they
    are deterministic, so one instance serves every invocation.  Nothing
    else is assumed of them: in particular, decoding is not assumed to
    invert encoding. *)

Class ChainSdk : Type := {
  AccountAddress : Type;
  MultiAgentTransaction : Type;
  AccountAuthenticator : Type;
  (** [AccountAddress.from(input)] *)
  AccountAddress_from : string -> Res AccountAddress;
  (** [Hex.fromHexString(s).toUint8Array()] *)
  Hex_fromHexString : string -> Res (list byte);
  (** [MultiAgentTransaction.deserialize(new Deserializer(bytes))] *)
  MultiAgentTransaction_deserialize : list byte -> Res MultiAgentTransaction;
  (** [AccountAuthenticator.deserialize(new Deserializer(bytes))] *)
  AccountAuthenticator_deserialize : list byte -> Res AccountAuthenticator;
  (** [transaction.bcsToHex().toString()] *)
  transaction_bcsToHex : MultiAgentTransaction -> Res string;
  (** [authenticator.bcsToHex().toString()] *)
  authenticator_bcsToHex : AccountAuthenticator -> Res string
}.

(** [account] of [useWallet()]: only the address is read, as a string. *)
Record AccountInfo : Type := { address : string }.

(** A log line [`[${time}] ${msg}`], kept as its two parts. *)
Record LogEntry : Type := { stamp : string; text : string }.

Definition render (e : LogEntry) : string := "[" ++ stamp e ++ "] " ++ text e.

(** An entry written by one of the [log("ERROR: ...")] calls. *)
Definition is_error (e : LogEntry) : bool := Js.startsWith "ERROR" (text e).

(** The component's React state. *)
Record Component : Type := {
  logs : list LogEntry;
  loading : bool;
  serializedTransaction : string;
  secondSignerSignature : string;
  secondSignerAddress : string
}.

(** [useState] initial values. *)
Definition initial : Component :=
  {| logs := [];
     loading := false;
     serializedTransaction := "";
     secondSignerSignature := "";
     secondSignerAddress := "" |}.

Section Choreography.

Context {sdk : ChainSdk}.

(** An argument of the script: [new U64(n)] or an address. *)
Inductive ScriptArg : Type :=
| ArgU64 (n : Z)
| ArgAddress (a : AccountAddress).

(** The argument of [movement.transaction.build.multiAgent]. *)
Record BuildRequest : Type := {
  sender : AccountAddress;
  secondarySignerAddresses : list AccountAddress;
  bytecode : list byte;
  functionArguments : list ScriptArg;
  expireTimestamp : Z
}.

(** The argument of the wallet adapter's [submitTransaction]. *)
Record SubmitRequest : Type := {
  transaction : MultiAgentTransaction;
  senderAuthenticator : AccountAuthenticator;
  additionalSignersAuthenticators : list AccountAuthenticator
}.

(** What the outside world answers during one invocation of a handler. *)
Record World : Type := {
  (** [account] of the render the handler belongs to *)
  account : option AccountInfo;
  (** [new Date().toLocaleTimeString()] at the n-th [log] call *)
  localeTime : nat -> string;
  (** [Date.now()], in milliseconds *)
  dateNow : Z;
  (** [fetch("/transfer_two_by_two.mv")] and [response.arrayBuffer()] *)
  fetchScript : Res (list byte);
  (** [prompt(...)]: [null] when cancelled *)
  promptAddress : option string;
  (** [movement.transaction.build.multiAgent(req)] *)
  buildMultiAgent : BuildRequest -> Res MultiAgentTransaction;
  (** [(await signTransaction({transactionOrPayload})).authenticator] *)
  signTransaction : MultiAgentTransaction -> Res AccountAuthenticator;
  (** [(await submitTransaction(req)).hash] *)
  submitTransaction : SubmitRequest -> Res string;
  (** [(await movement.waitForTransaction({transactionHash})).success] *)
  waitForTransaction : string -> Res bool
}.

(** A call to a collaborator (browser, SDK, wallet adapter).
    [CallNewMovement] stands for [new Movement(new MovementConfig(...))],
    which only stores the configuration. *)
Inductive Event : Type :=
| CallFetch (url : string)
| CallPrompt (message : string)
| CallNewMovement
| CallAddressFrom (input : string)
| CallBuildMultiAgent (req : BuildRequest)
| CallTransactionToHex (t : MultiAgentTransaction)
| CallAuthenticatorToHex (a : AccountAuthenticator)
| CallHexFromString (s : string)
| CallTransactionDeserialize (bytes : list byte)
| CallAuthenticatorDeserialize (bytes : list byte)
| CallSignTransaction (t : MultiAgentTransaction)
| CallSubmitTransaction (req : SubmitRequest)
| CallWaitForTransaction (hash : string)
| CallConsoleError (e : Thrown).

(** The running state of one invocation: the pending component state, the
    calls made so far (each with the pending state at that moment), and
    the number of [log] calls made so far. *)
Record Machine : Type := {
  comp : Component;
  calls : list (Event * Component);
  ticks : nat
}.

(** ** The monad of handler bodies *)

Definition M (A : Type) : Type := Machine -> Res A * Machine.

Definition ret {A} (a : A) : M A := fun m => (Val a, m).

Definition bind {A B} (c : M A) (k : A -> M B) : M B :=
  fun m =>
    match c m with
    | (Val a, m1) => k a m1
    | (Exn e, m1) => (Exn e, m1)
    end.

(** [try { body } catch (error) { handler } finally { fin }] *)
Definition tryCatchFinally {A} (body : M A) (catchClause : Thrown -> M A)
    (fin : M unit) : M A :=
  fun m =>
    let (r, m1) :=
      match body m with
      | (Val a, m1) => (Val a, m1)
      | (Exn e, m1) => catchClause e m1
      end in
    match fin m1 with
    | (Val _, m2) => (r, m2)
    | (Exn e, m2) => (Exn e, m2)
    end.

(** Entering a call in the journal, with the pending state at that moment. *)
Definition journalled (ev : Event) (m : Machine) : Machine :=
  {| comp := comp m; calls := calls m ++ [(ev, comp m)]; ticks := ticks m |}.

(** A call to a collaborator: it is entered in the journal and its answer
    is returned or thrown. *)
Definition call {A} (ev : Event) (answer : Res A) : M A :=
  fun m => (answer, journalled ev m).

(** Evaluating an expression that may throw; no collaborator is called. *)
Definition eval {A} (r : Res A) : M A := fun m => (r, m).

(** A state setter applied to the pending component state. *)
Definition pending (f : Component -> Component) (m : Machine) : Machine :=
  {| comp := f (comp m); calls := calls m; ticks := ticks m |}.

Definition update (f : Component -> Component) : M unit :=
  fun m => (Val tt, pending f m).

Local Notation "x <- c ;; k" := (bind c (fun x => k))
  (at level 61, c at next level, right associativity).
Local Notation "c ;; k" := (bind c (fun _ => k))
  (at level 61, right associativity).

(** ** State setters *)

Definition setLogs (f : list LogEntry -> list LogEntry) : M unit :=
  update (fun c =>
    {| logs := f (logs c);
       loading := loading c;
       serializedTransaction := serializedTransaction c;
       secondSignerSignature := secondSignerSignature c;
       secondSignerAddress := secondSignerAddress c |}).

Definition setLoading (b : bool) : M unit :=
  update (fun c =>
    {| logs := logs c;
       loading := b;
       serializedTransaction := serializedTransaction c;
       secondSignerSignature := secondSignerSignature c;
       secondSignerAddress := secondSignerAddress c |}).

Definition setSerializedTransaction (v : string) : M unit :=
  update (fun c =>
    {| logs := logs c;
       loading := loading c;
       serializedTransaction := v;
       secondSignerSignature := secondSignerSignature c;
       secondSignerAddress := secondSignerAddress c |}).

Definition setSecondSignerSignature (v : string) : M unit :=
  update (fun c =>
    {| logs := logs c;
       loading := loading c;
       serializedTransaction := serializedTransaction c;
       secondSignerSignature := v;
       secondSignerAddress := secondSignerAddress c |}).

Definition setSecondSignerAddress (v : string) : M unit :=
  update (fun c =>
    {| logs := logs c;
       loading := loading c;
       serializedTransaction := serializedTransaction c;
       secondSignerSignature := secondSignerSignature c;
       secondSignerAddress := v |}).

(** ** Logging *)

(** [log(msg)]: [setLogs(prev => [...prev, `[${time}] ${msg}`])].  The
    accompanying [console.log(msg)] repeats the entry and is not journalled. *)
Definition logged (w : World) (msg : string) (m : Machine) : Machine :=
  pending
    (fun c =>
       {| logs := logs c ++ [{| stamp := localeTime w (ticks m); text := msg |}];
          loading := loading c;
          serializedTransaction := serializedTransaction c;
          secondSignerSignature := secondSignerSignature c;
          secondSignerAddress := secondSignerAddress c |})
    {| comp := comp m; calls := calls m; ticks := S (ticks m) |}.

Definition log (w : World) (msg : string) : M unit :=
  fun m => (Val tt, logged w msg m).

(** [clearLogs()]: [setLogs([])]. *)
Definition clearLogs : M unit := setLogs (fun _ => []).

(** ** The handlers *)

(** Where a handler returned.  The TypeScript handlers return nothing; the
    label only names the [return] (or the end of the block) that was reached:
    - [Rejected]: one of the guards before [try];
    - [Aborted]: the [return] inside [try] of step 1 (no address given);
    - [Caught e]: the end of the [catch] block, entered with [e];
    - [Completed]: the end of the [try] block. *)
Inductive Outcome : Type :=
| Rejected
| Aborted
| Caught (e : Thrown)
| Completed.

(** The [catch] block shared by the three handlers.  The argument of
    [log] is evaluated first, and may throw. *)
Definition catchBlock (w : World) (error : Thrown) : M Outcome :=
  msg <- eval (error_text error) ;;
  log w ("ERROR: " ++ msg) ;;
  call (CallConsoleError error) (Val tt) ;;
  ret (Caught error).

(** [loadScript] *)
Definition loadScript (w : World) : M (list byte) :=
  log w "Loading transfer_two_by_two.mv script..." ;;
  code <- call (CallFetch "/transfer_two_by_two.mv") (fetchScript w) ;;
  log w ("Script loaded: " ++ Js.of_nat (List.length code) ++ " bytes") ;;
  ret code.

(** [step1_CreateTransaction] *)
Definition step1_CreateTransaction (w : World) (snap : Component) : M Outcome :=
  match account w with
  | None =>
      log w "ERROR: No account connected" ;;
      ret Rejected
  | Some acct =>
      setLoading true ;;
      clearLogs ;;
      tryCatchFinally
        (log w "=== STEP 1: Create Transaction (First Sender) ===" ;;
         log w ("First sender (you): " ++ address acct) ;;
         code <- loadScript w ;;
         call CallNewMovement (Val tt) ;;
         secondSignerAddr <-
           call (CallPrompt "Enter second signer address (0x...):")
                (Val (promptAddress w)) ;;
         match secondSignerAddr with
         | Some addr =>
             if Js.truthy addr then
               setSecondSignerAddress addr ;;
               let amountFirst := 1000%Z in
               let amountSecond := 1000%Z in
               dstFirst <-
                 call (CallAddressFrom (address acct))
                      (AccountAddress_from (address acct)) ;;
               dstSecond <-
                 call (CallAddressFrom addr) (AccountAddress_from addr) ;;
               let depositFirst := 1000%Z in
               log w "Building multi-agent transaction (5 min expiration)..." ;;
               from <-
                 call (CallAddressFrom (address acct))
                      (AccountAddress_from (address acct)) ;;
               secondary <-
                 call (CallAddressFrom addr) (AccountAddress_from addr) ;;
               let req :=
                 {| sender := from;
                    secondarySignerAddresses := [secondary];
                    bytecode := code;
                    functionArguments :=
                      [ArgU64 amountFirst; ArgU64 amountSecond;
                       ArgAddress dstFirst; ArgAddress dstSecond;
                       ArgU64 depositFirst];
                    expireTimestamp := (dateNow w / 1000 + 300)%Z |} in
               tx <- call (CallBuildMultiAgent req) (buildMultiAgent w req) ;;
               serializedTx <-
                 call (CallTransactionToHex tx) (transaction_bcsToHex tx) ;;
               setSerializedTransaction serializedTx ;;
               log w "Transaction created and serialized" ;;
               log w ("Serialized TX: " ++ Js.substring0 60 serializedTx ++ "...") ;;
               log w "" ;;
               log w "Now switch wallet to second signer and click Step 2" ;;
               ret Completed
             else
               log w "ERROR: Second signer address required" ;;
               ret Aborted
         | None =>
             log w "ERROR: Second signer address required" ;;
             ret Aborted
         end)
        (catchBlock w)
        (setLoading false)
  end.

(** [MultiAgentTransaction.deserialize(new Deserializer(
      Hex.fromHexString(hex).toUint8Array()))] *)
Definition deserializeTransaction (hex : string) : M MultiAgentTransaction :=
  bytes <- call (CallHexFromString hex) (Hex_fromHexString hex) ;;
  call (CallTransactionDeserialize bytes) (MultiAgentTransaction_deserialize bytes).

(** [AccountAuthenticator.deserialize(new Deserializer(
      Hex.fromHexString(hex).toUint8Array()))] *)
Definition deserializeAuthenticator (hex : string) : M AccountAuthenticator :=
  bytes <- call (CallHexFromString hex) (Hex_fromHexString hex) ;;
  call (CallAuthenticatorDeserialize bytes) (AccountAuthenticator_deserialize bytes).

(** Step 2, lines 154-156: the stored form of the authenticator. *)
Definition authenticatorBcs (authenticatorBcsHex : string) : string :=
  if Js.startsWith "0x" authenticatorBcsHex
  then authenticatorBcsHex
  else "0x" ++ authenticatorBcsHex.

(** Step 3, lines 197-199: the form handed to [Hex.fromHexString]. *)
Definition signatureHex (secondSignerSignature : string) : string :=
  if Js.startsWith "0x" secondSignerSignature
  then Js.slice 2 secondSignerSignature
  else secondSignerSignature.

(** [step2_SecondSignerSign] *)
Definition step2_SecondSignerSign (w : World) (snap : Component) : M Outcome :=
  match account w with
  | None =>
      log w "ERROR: No account connected" ;;
      ret Rejected
  | Some acct =>
      if negb (Js.truthy (serializedTransaction snap)) then
        log w "ERROR: No transaction to sign. Run Step 1 first." ;;
        ret Rejected
      else
        setLoading true ;;
        tryCatchFinally
          (log w "=== STEP 2: Second Sender Signs ===" ;;
           log w ("Current wallet: " ++ address acct) ;;
           tx <- deserializeTransaction (serializedTransaction snap) ;;
           log w "Transaction deserialized" ;;
           log w "Requesting wallet signature..." ;;
           signature <- call (CallSignTransaction tx) (signTransaction w tx) ;;
           log w "Wallet signed successfully" ;;
           authenticatorBcsHex <-
             call (CallAuthenticatorToHex signature)
                  (authenticator_bcsToHex signature) ;;
           setSecondSignerSignature (authenticatorBcs authenticatorBcsHex) ;;
           log w ("Serialized signature: "
                  ++ Js.substring0 60 (authenticatorBcs authenticatorBcsHex)
                  ++ "...") ;;
           log w "" ;;
           log w "Now switch wallet back to first signer and click Step 3" ;;
           ret Completed)
          (catchBlock w)
          (setLoading false)
  end.

(** [step3_FirstSignerSubmit] *)
Definition step3_FirstSignerSubmit (w : World) (snap : Component) : M Outcome :=
  match account w with
  | None =>
      log w "ERROR: No account connected" ;;
      ret Rejected
  | Some acct =>
      if negb (Js.truthy (serializedTransaction snap))
         || negb (Js.truthy (secondSignerSignature snap)) then
        log w "ERROR: Missing transaction or second signer signature. Complete Steps 1 and 2 first." ;;
        ret Rejected
      else
        setLoading true ;;
        tryCatchFinally
          (log w "=== STEP 3: First Sender Signs & Submits ===" ;;
           log w ("Current wallet: " ++ address acct) ;;
           tx <- deserializeTransaction (serializedTransaction snap) ;;
           log w "Transaction deserialized" ;;
           reviewerSignature <-
             deserializeAuthenticator (signatureHex (secondSignerSignature snap)) ;;
           log w "Reviewer signature deserialized" ;;
           log w "Requesting wallet signature..." ;;
           senderSignature <- call (CallSignTransaction tx) (signTransaction w tx) ;;
           log w "Wallet signed successfully" ;;
           log w "Submitting via wallet adapter submitTransaction..." ;;
           let req :=
             {| transaction := tx;
                senderAuthenticator := senderSignature;
                additionalSignersAuthenticators := [reviewerSignature] |} in
           hash <- call (CallSubmitTransaction req) (submitTransaction w req) ;;
           log w ("SUCCESS! Transaction hash: " ++ hash) ;;
           call CallNewMovement (Val tt) ;;
           log w "Waiting for confirmation..." ;;
           success <- call (CallWaitForTransaction hash) (waitForTransaction w hash) ;;
           log w ("Transaction confirmed: " ++ Js.of_bool success) ;;
           ret Completed)
          (catchBlock w)
          (setLoading false)
  end.

(** ** Invoking a handler *)

Inductive StepId : Type := Create | Countersign | Submit.

Definition handler (k : StepId) : World -> Component -> M Outcome :=
  match k with
  | Create => step1_CreateTransaction
  | Countersign => step2_SecondSignerSign
  | Submit => step3_FirstSignerSubmit
  end.

(** The machine a click starts from. *)
Definition start (s : Component) : Machine :=
  {| comp := s; calls := []; ticks := 0 |}.

(** A click: the handler of the render showing [s] runs on [s], with an
    empty journal. *)
Definition invoke (k : StepId) (w : World) (s : Component) : Res Outcome * Machine :=
  handler k w s (start s).

Definition outcome (k : StepId) (w : World) (s : Component) : Res Outcome :=
  fst (invoke k w s).

(** The component state of the next render. *)
Definition after (k : StepId) (w : World) (s : Component) : Component :=
  comp (snd (invoke k w s)).

(** The calls made to the collaborators, in order. *)
Definition journal (k : StepId) (w : World) (s : Component) : list (Event * Component) :=
  calls (snd (invoke k w s)).

(** ** Vocabulary of the specification *)

(** A session identity exists: [account] is not [null]. *)
Definition connected (w : World) : bool :=
  match account w with
  | Some _ => true
  | None => false
  end.

(** The guard of each handler: a connected session, and the relay slots the
    step consumes. *)
Definition precondition (k : StepId) (w : World) (s : Component) : bool :=
  match k with
  | Create => connected w
  | Countersign => connected w && Js.truthy (serializedTransaction s)
  | Submit =>
      connected w
      && Js.truthy (serializedTransaction s)
      && Js.truthy (secondSignerSignature s)
  end.

(** What an answer throws, if it throws. *)
Definition thrown {A} (r : Res A) : option Thrown :=
  match r with
  | Val _ => None
  | Exn e => Some e
  end.

(** What a collaborator call throws in the world [w], if it throws: for
    every [call ev answer] in the handlers, [answer] is the one looked up
    here. *)
Definition thrown_by (w : World) (ev : Event) : option Thrown :=
  match ev with
  | CallFetch _ => thrown (fetchScript w)
  | CallAddressFrom input => thrown (AccountAddress_from input)
  | CallBuildMultiAgent req => thrown (buildMultiAgent w req)
  | CallTransactionToHex t => thrown (transaction_bcsToHex t)
  | CallAuthenticatorToHex a => thrown (authenticator_bcsToHex a)
  | CallHexFromString hex => thrown (Hex_fromHexString hex)
  | CallTransactionDeserialize bytes =>
      thrown (MultiAgentTransaction_deserialize bytes)
  | CallAuthenticatorDeserialize bytes =>
      thrown (AccountAuthenticator_deserialize bytes)
  | CallSignTransaction t => thrown (signTransaction w t)
  | CallSubmitTransaction req => thrown (submitTransaction w req)
  | CallWaitForTransaction hash => thrown (waitForTransaction w hash)
  | CallPrompt _ | CallNewMovement | CallConsoleError _ => None
  end.

(** The Relay Store: the transaction slot and the authenticator slot. *)
Definition relay (s : Component) : string * string :=
  (serializedTransaction s, secondSignerSignature s).

(** The component states reachable from the initial one by clicks on the
    three step buttons and on the Clear button, each run having ended
    before the next click. *)
Inductive reachable : Component -> Prop :=
| reachable_initial : reachable initial
| reachable_step k w s : reachable s -> reachable (after k w s)
| reachable_clear s : reachable s -> reachable (comp (snd (clearLogs (start s)))).

(** Step 1 with a connected session is the only click on a step that calls
    [clearLogs]. *)
Definition clears_log (k : StepId) (w : World) : bool :=
  match k with
  | Create => connected w
  | Countersign | Submit => false
  end.

(** The same component state with an empty log. *)
Definition forget_logs (s : Component) : Component :=
  {| logs := [];
     loading := loading s;
     serializedTransaction := serializedTransaction s;
     secondSignerSignature := secondSignerSignature s;
     secondSignerAddress := secondSignerAddress s |}.


(** ** Reasoning about handler bodies *)

(** [wp c Q m]: running [c] from [m] ends in a result and a machine that
    satisfy [Q]. *)
Definition wp {A} (c : M A) (Q : Res A -> Machine -> Prop) (m : Machine) : Prop :=
  Q (fst (c m)) (snd (c m)).



End Choreography.

(** ** A mock SDK and mock worlds, for concrete runs

    Addresses, transactions and authenticators are strings; the encoding of
    an artifact is its text behind [0x]; decoding accepts the text with or
    without [0x] and refuses the empty text. *)

Module Mock.

Definition stripPrefix (s : string) : string :=
  if Js.startsWith "0x" s then Js.slice 2 s else s.

Definition fromHexString (s : string) : Res (list byte) :=
  if stripPrefix s =? ""
  then Exn (ErrorObj "ParsingError" "Hex string is too short")
  else Val (list_byte_of_string (stripPrefix s)).

Definition addressFrom (s : string) : Res string :=
  if Js.startsWith "0x" s
  then Val s
  else Exn (ErrorObj "ParsingError" "Hex string must start with a leading 0x").

#[export] Instance sdk : ChainSdk := {|
  AccountAddress := string;
  MultiAgentTransaction := string;
  AccountAuthenticator := string;
  AccountAddress_from := addressFrom;
  Hex_fromHexString := fromHexString;
  MultiAgentTransaction_deserialize := fun bytes => Val (string_of_list_byte bytes);
  AccountAuthenticator_deserialize := fun bytes => Val (string_of_list_byte bytes);
  transaction_bcsToHex := fun t => Val ("0x" ++ t);
  authenticator_bcsToHex := fun a => Val ("0x" ++ a)
|}.

Definition alice : AccountInfo := {| address := "0xa11ce" |}.
Definition bob : AccountInfo := {| address := "0xb0b" |}.

(** A world in which every collaborator answers: the script has three
    bytes, the operator types [answer], the built transaction is [tx] and
    the wallet signs with [sig]. *)
Definition world (acct : option AccountInfo) (answer : option string)
    (tx sig : string) : World :=
  {| account := acct;
     localeTime := fun _ => "10:00:00 AM";
     dateNow := 1700000000000%Z;
     fetchScript := Val [xa1; x1c; xeb];
     promptAddress := answer;
     buildMultiAgent := fun _ => Val tx;
     signTransaction := fun _ => Val sig;
     submitTransaction := fun _ => Val "0xfeed";
     waitForTransaction := fun _ => Val true |}.

(** The same world with the script fetch failing. *)
Definition offline (acct : option AccountInfo) (answer : option string) : World :=
  {| account := acct;
     localeTime := fun _ => "10:00:00 AM";
     dateNow := 1700000000000%Z;
     fetchScript := Exn (ErrorObj "TypeError" "Failed to fetch");
     promptAddress := answer;
     buildMultiAgent := fun _ => Val "7478";
     signTransaction := fun _ => Val "5347";
     submitTransaction := fun _ => Val "0xfeed";
     waitForTransaction := fun _ => Val true |}.

(** A run of the flow: Alice creates, Bob countersigns, Alice creates
    again. *)
Definition w_create : World := world (Some alice) (Some "0xb0b") "7478" "".
Definition s_created : Component := after Create w_create initial.
Definition w_sign : World := world (Some bob) None "" "5347".
Definition s_signed : Component := after Countersign w_sign s_created.
Definition w_recreate : World := world (Some alice) (Some "0xb0b") "9999" "".
Definition s_recreated : Component := after Create w_recreate s_signed.
Definition w_submit : World := world (Some alice) None "" "a11c".

(** Bob signs a second time; the wallet returns another authenticator. *)
Definition w_sign_again : World := world (Some bob) None "" "beef".

(** Alice is connected and answers the prompt, but the script cannot be
    fetched. *)
Definition w_offline : World := offline (Some alice) (Some "0xb0b").

End Mock.

(** ** The rendered component

    What [MultiAgentTest] returns, as the flat sequence of its paragraphs,
    buttons and log lines (styles other than the colour of a log line are
    left out). *)

Module JsText.

(** [s.includes(sub)] *)
Definition includes (sub s : string) : bool :=
  match index 0 sub s with
  | Some _ => true
  | None => false
  end.

End JsText.

Section Rendering.

Context {sdk : ChainSdk}.

(** The [onClick] of a button. *)
Inductive Action : Type :=
| ClickConnect
| ClickDisconnect
| ClickStep (k : StepId)
| ClickClear.

Definition StepId_eqb (k k' : StepId) : bool :=
  match k, k' with
  | Create, Create | Countersign, Countersign | Submit, Submit => true
  | _, _ => false
  end.

Definition Action_eqb (a a' : Action) : bool :=
  match a, a' with
  | ClickConnect, ClickConnect
  | ClickDisconnect, ClickDisconnect
  | ClickClear, ClickClear => true
  | ClickStep k, ClickStep k' => StepId_eqb k k'
  | _, _ => false
  end.

Inductive Node : Type :=
| Paragraph (s : string)
| Button (label : string) (disabled : bool) (onClick : Action)
| LogLine (color : string) (s : string).

(** The colour of a log line, lines 315-316. *)
Definition logColor (l : string) : string :=
  if JsText.includes "ERROR" l then "#ff6b6b"
  else if JsText.includes "SUCCESS" l then "#69db7c"
  else "#ccc".

(** The display of a relay slot, lines 292-293:
    [slot ? `${slot.substring(0, 40)}...` : "(none)"]. *)
Definition slotLine (slot : string) : string :=
  if Js.truthy slot then Js.substring0 40 slot ++ "..." else "(none)".

(** The [return] of [MultiAgentTest], lines 241-329, for the values
    [connected], [account] and [wallet?.name] of [useWallet()]. *)
Definition view (isConnected : bool) (acct : option AccountInfo)
    (walletName : option string) (s : Component) : list Node :=
  ((if negb isConnected
    then [Button "Connect Wallet" false ClickConnect]
    else [Paragraph ("Connected: "
                     ++ match acct with
                        | Some a => Js.substring0 10 (address a)
                        | None => ""
                        end
                     ++ "...");
          Paragraph ("Wallet: "
                     ++ match walletName with
                        | Some n => n
                        | None => ""
                        end);
          Button "Disconnect" false ClickDisconnect])
   ++ (if isConnected
       then [Button "Step 1: Create TX (First Sender)"
               (loading s) (ClickStep Create);
             Button "Step 2: Sign (Second Sender)"
               (loading s || negb (Js.truthy (serializedTransaction s)))
               (ClickStep Countersign);
             Button "Step 3: Sign & Submit (First Sender)"
               (loading s || negb (Js.truthy (secondSignerSignature s)))
               (ClickStep Submit)]
       else [])
   ++ [Paragraph ("Transaction: " ++ slotLine (serializedTransaction s));
       Paragraph ("Second Signature: " ++ slotLine (secondSignerSignature s))]
   ++ [Paragraph "Logs:"; Button "Clear" false ClickClear]
   ++ match logs s with
      | [] => [Paragraph "No logs yet. Connect wallet and run the steps."]
      | _ :: _ =>
          map (fun e => LogLine (logColor (render e)) (render e)) (logs s)
      end)%list.

(** The [disabled] attribute of the three step buttons, lines 264, 273
    and 282. *)
Definition step_disabled (k : StepId) (s : Component) : bool :=
  match k with
  | Create => loading s
  | Countersign => loading s || negb (Js.truthy (serializedTransaction s))
  | Submit => loading s || negb (Js.truthy (secondSignerSignature s))
  end.

(** A button with this [onClick] is shown and not disabled. *)
Definition clickable (v : list Node) (a : Action) : bool :=
  existsb (fun n =>
             match n with
             | Button _ false a' => Action_eqb a a'
             | _ => false
             end) v.

(** A call to [submitTransaction]. *)
Definition is_submission (ev : Event) : bool :=
  match ev with
  | CallSubmitTransaction _ => true
  | _ => false
  end.

(** ** Comparing two runs *)

(** Two machines agree when their pending relay slots are the same and the
    same calls were made (the pending states noted with the calls, the
    log, the loading flag and the stored address may differ). *)
Definition agree (m m' : Machine) : Prop :=
  relay (comp m) = relay (comp m') /\
  map fst (calls m) = map fst (calls m').

(** Two computations that, from machines that agree, end with the same
    result in machines that agree. *)
Definition related {A} (c c' : M A) : Prop :=
  forall m m',
    agree m m' ->
    fst (c m) = fst (c' m') /\ agree (snd (c m)) (snd (c' m')).

(** The same world with another account connected. *)
Definition with_account (a : AccountInfo) (w : World) : World :=
  {| account := Some a;
     localeTime := localeTime w;
     dateNow := dateNow w;
     fetchScript := fetchScript w;
     promptAddress := promptAddress w;
     buildMultiAgent := buildMultiAgent w;
     signTransaction := signTransaction w;
     submitTransaction := submitTransaction w;
     waitForTransaction := waitForTransaction w |}.

(** The calls of a click, without the pending states noted with them. *)
Definition events (k : StepId) (w : World) (s : Component) : list Event :=
  map fst (journal k w s).

(** [!secondSignerAddr] is false: the prompt was answered with a non-empty
    text. *)
Definition prompt_answered (w : World) : bool :=
  match promptAddress w with
  | Some addr => Js.truthy addr
  | None => false
  end.

(** The answers Step 1 needs to reach the end of its [try] block: the
    session's account, a fetched script, a typed address, both addresses
    parsed, the transaction [t] built from them and its encoding [h]. *)
Definition create_path (w : World) (t : MultiAgentTransaction) (h : string) : Prop :=
  exists acct addr code from to,
    account w = Some acct /\
    promptAddress w = Some addr /\
    Js.truthy addr = true /\
    fetchScript w = Val code /\
    AccountAddress_from (address acct) = Val from /\
    AccountAddress_from addr = Val to /\
    buildMultiAgent w
      {| sender := from;
         secondarySignerAddresses := [to];
         bytecode := code;
         functionArguments :=
           [ArgU64 1000; ArgU64 1000; ArgAddress from; ArgAddress to;
            ArgU64 1000];
         expireTimestamp := (dateNow w / 1000 + 300)%Z |} = Val t /\
    transaction_bcsToHex t = Val h.

(** The answers Step 2 needs: the stored transaction decoded to [t], the
    wallet's authenticator [a] for it and its encoding [h]. *)
Definition countersign_path (w : World) (s : Component)
    (t : MultiAgentTransaction) (a : AccountAuthenticator) (h : string) : Prop :=
  exists bytes,
    Hex_fromHexString (serializedTransaction s) = Val bytes /\
    MultiAgentTransaction_deserialize bytes = Val t /\
    signTransaction w t = Val a /\
    authenticator_bcsToHex a = Val h.

(** The request Step 3 submits. *)
Definition submitRequest (t : MultiAgentTransaction)
    (a r : AccountAuthenticator) : SubmitRequest :=
  {| transaction := t;
     senderAuthenticator := a;
     additionalSignersAuthenticators := [r] |}.

(** The answers Step 3 needs: the stored transaction decoded to [t], the
    stored authenticator decoded to [r], the wallet's authenticator [a] for
    [t], the hash returned for the submission and the confirmation. *)
Definition submit_path (w : World) (s : Component)
    (t : MultiAgentTransaction) (a r : AccountAuthenticator)
    (hash : string) (success : bool) : Prop :=
  exists txBytes sigBytes,
    Hex_fromHexString (serializedTransaction s) = Val txBytes /\
    MultiAgentTransaction_deserialize txBytes = Val t /\
    Hex_fromHexString (signatureHex (secondSignerSignature s)) = Val sigBytes /\
    AccountAuthenticator_deserialize sigBytes = Val r /\
    signTransaction w t = Val a /\
    submitTransaction w (submitRequest t a r) = Val hash /\
    waitForTransaction w hash = Val success.

(** The collaborator calls that occur in the text of each handler. *)
Definition allowed (k : StepId) (ev : Event) : bool :=
  match k, ev with
  | _, CallConsoleError _ => true
  | Create, (CallFetch _ | CallNewMovement | CallPrompt _ | CallAddressFrom _
             | CallBuildMultiAgent _ | CallTransactionToHex _) => true
  | Countersign, (CallHexFromString _ | CallTransactionDeserialize _
                  | CallSignTransaction _ | CallAuthenticatorToHex _) => true
  | Submit, (CallHexFromString _ | CallTransactionDeserialize _
             | CallAuthenticatorDeserialize _ | CallSignTransaction _
             | CallSubmitTransaction _ | CallNewMovement
             | CallWaitForTransaction _) => true
  | _, _ => false
  end.

End Rendering.

(** ** Further mock worlds *)

Module Scenario.

Import Mock.

(** The operator cancels the prompt. *)
Definition w_cancel : World := world (Some alice) None "7478" "".

(** The operator confirms the prompt without typing. *)
Definition w_blank : World := world (Some alice) (Some "") "7478" "".

(** Alice submits; the chain reports the transaction as failed. *)
Definition w_failed_on_chain : World :=
  {| account := Some alice;
     localeTime := fun _ => "10:05:00 AM";
     dateNow := 1700000300999%Z;
     fetchScript := Val [xa1; x1c; xeb];
     promptAddress := None;
     buildMultiAgent := fun _ => Val "7478";
     signTransaction := fun _ => Val "a11c";
     submitTransaction := fun _ => Val "0xfeed";
     waitForTransaction := fun _ => Val false |}.

(** The wallet refuses to sign. *)
Definition w_refuse : World :=
  {| account := Some bob;
     localeTime := fun _ => "10:01:00 AM";
     dateNow := 1700000060000%Z;
     fetchScript := Val [xa1; x1c; xeb];
     promptAddress := None;
     buildMultiAgent := fun _ => Val "7478";
     signTransaction := fun _ => Exn (ThrownString "User rejected the request");
     submitTransaction := fun _ => Val "0xfeed";
     waitForTransaction := fun _ => Val true |}.

(** The wallet's promise rejects with [undefined]. *)
Definition w_reject_undefined : World :=
  {| account := Some bob;
     localeTime := fun _ => "10:01:00 AM";
     dateNow := 1700000060000%Z;
     fetchScript := Val [xa1; x1c; xeb];
     promptAddress := None;
     buildMultiAgent := fun _ => Val "7478";
     signTransaction := fun _ => Exn ThrownUndefined;
     submitTransaction := fun _ => Val "0xfeed";
     waitForTransaction := fun _ => Val true |}.

(** Alice answers the prompt; the node refuses to build the transaction. *)
Definition w_build_fails : World :=
  {| account := Some alice;
     localeTime := fun _ => "10:00:00 AM";
     dateNow := 1700000000000%Z;
     fetchScript := Val [xa1; x1c; xeb];
     promptAddress := Some "0xb0b";
     buildMultiAgent := fun _ => Exn (ErrorObj "Error" "Account not found");
     signTransaction := fun _ => Val "5347";
     submitTransaction := fun _ => Val "0xfeed";
     waitForTransaction := fun _ => Val true |}.

(** Somebody else than Bob is connected for Step 2. *)
Definition mallory : AccountInfo := {| address := "0x3a110c" |}.

(** The request Alice's Step 1 is expected to build, and the call that
    carries it (the eighth call of that run). *)
Definition alice_request : BuildRequest :=
  {| sender := "0xa11ce";
     secondarySignerAddresses := ["0xb0b"];
     bytecode := [xa1; x1c; xeb];
     functionArguments :=
       [ArgU64 1000; ArgU64 1000; ArgAddress "0xa11ce"; ArgAddress "0xb0b";
        ArgU64 1000];
     expireTimestamp := 1700000300%Z |}.

Definition alice_build_call : Event * Component :=
  nth 7 (journal Create w_create initial) (CallNewMovement, initial).

End Scenario.

(** * Properties *)

(** ** Facts about the string primitives *)

Module JsFacts.
Import Js.

Lemma truthy_true (s : string) : truthy s = true <-> s <> "".
Proof.
  unfold truthy. rewrite negb_true_iff. apply String.eqb_neq.
Qed.

Lemma truthy_false (s : string) : truthy s = false <-> s = "".
Proof.
  unfold truthy. rewrite negb_false_iff. apply String.eqb_eq.
Qed.

Lemma startsWith_append (p s : string) : startsWith p (p ++ s) = true.
Proof.
  unfold startsWith. induction p as [|c p IH]; simpl.
  - destruct s; reflexivity.
  - destruct (Ascii.ascii_dec c c) as [_|n]; [exact IH | now elim n].
Qed.

Lemma substring_all (s : string) : substring 0 (String.length s) s = s.
Proof.
  induction s as [|c s IH]; simpl; [reflexivity | now rewrite IH].
Qed.

Lemma slice_append (p s : string) : slice (String.length p) (p ++ s) = s.
Proof.
  unfold slice. induction p as [|c p IH]; simpl.
  - rewrite Nat.sub_0_r. apply substring_all.
  - exact IH.
Qed.

Lemma startsWith_nonempty (p s : string) :
  p <> "" -> startsWith p s = true -> s <> "".
Proof.
  unfold startsWith. intros Hp H ->. destruct p; [now elim Hp | discriminate].
Qed.

End JsFacts.

(** ** Rules for running handler bodies *)

Section Rules.

Context {sdk : ChainSdk}.

Lemma wp_ret {A} (a : A) (Q : Res A -> Machine -> Prop) (m : Machine) :
  Q (Val a) m -> wp (ret a) Q m.
Proof. exact (fun H => H). Qed.

Lemma wp_bind {A B} (c : M A) (k : A -> M B) (Q : Res B -> Machine -> Prop)
    (m : Machine) :
  wp c (fun r m1 =>
          match r with
          | Val a => wp (k a) Q m1
          | Exn e => Q (Exn e) m1
          end) m ->
  wp (bind c k) Q m.
Proof.
  unfold wp, bind. destruct (c m) as [[a|e] m1]; exact (fun H => H).
Qed.

Lemma wp_call {A} (ev : Event) (answer : Res A) (Q : Res A -> Machine -> Prop)
    (m : Machine) :
  Q answer (journalled ev m) -> wp (call ev answer) Q m.
Proof. exact (fun H => H). Qed.

Lemma wp_eval {A} (r : Res A) (Q : Res A -> Machine -> Prop) (m : Machine) :
  Q r m -> wp (eval r) Q m.
Proof. exact (fun H => H). Qed.

Lemma wp_update (f : Component -> Component) (Q : Res unit -> Machine -> Prop)
    (m : Machine) :
  Q (Val tt) (pending f m) -> wp (update f) Q m.
Proof. exact (fun H => H). Qed.

Lemma wp_log (w : World) (msg : string) (Q : Res unit -> Machine -> Prop)
    (m : Machine) :
  Q (Val tt) (logged w msg m) -> wp (log w msg) Q m.
Proof. exact (fun H => H). Qed.

(** [finally] runs on every path; here it is always a setter, which does
    not throw, so the rule is stated for a block that returns normally. *)
Lemma wp_try {A} (body : M A) (h : Thrown -> M A) (f : Component -> Component)
    (Q : Res A -> Machine -> Prop) (m : Machine) :
  wp body (fun r m1 =>
             match r with
             | Val a => Q (Val a) (pending f m1)
             | Exn e => wp (h e) (fun r2 m2 => Q r2 (pending f m2)) m1
             end) m ->
  wp (tryCatchFinally body h (update f)) Q m.
Proof.
  unfold wp, tryCatchFinally, update.
  destruct (body m) as [[a|e] m1]; cbn [fst snd].
  - exact (fun H => H).
  - destruct (h e m1) as [r2 m2]. exact (fun H => H).
Qed.

Lemma invoke_wp (k : StepId) (w : World) (s : Component)
    (Q : Res Outcome -> Machine -> Prop) :
  wp (handler k w s) Q (start s) ->
  Q (outcome k w s) (snd (invoke k w s)).
Proof. exact (fun H => H). Qed.

End Rules.

(** One step of symbolic execution of a handler body. *)
Ltac wp_step :=
  lazymatch goal with
  | |- wp (ret _) _ _ => apply wp_ret
  | |- wp (bind _ _) _ _ => apply wp_bind
  | |- wp (call _ _) _ _ => apply wp_call
  | |- wp (eval _) _ _ => apply wp_eval
  | |- wp (log _ _) _ _ => apply wp_log
  | |- wp (update _) _ _ => apply wp_update
  | |- wp (tryCatchFinally _ _ (update _)) _ _ => apply wp_try
  | |- wp (tryCatchFinally _ _ (setLoading _)) _ _ =>
      unfold setLoading at 1; apply wp_try
  | |- wp (setLogs _) _ _ => unfold setLogs
  | |- wp (setLoading _) _ _ => unfold setLoading
  | |- wp (setSerializedTransaction _) _ _ => unfold setSerializedTransaction
  | |- wp (setSecondSignerSignature _) _ _ => unfold setSecondSignerSignature
  | |- wp (setSecondSignerAddress _) _ _ => unfold setSecondSignerAddress
  | |- wp clearLogs _ _ => unfold clearLogs
  | |- wp (catchBlock _ _) _ _ => unfold catchBlock
  | |- wp (loadScript _) _ _ => unfold loadScript
  | |- wp (deserializeTransaction _) _ _ => unfold deserializeTransaction
  | |- wp (deserializeAuthenticator _) _ _ => unfold deserializeAuthenticator
  | |- wp (match ?x with Some _ => _ | None => _ end) _ _ => destruct x eqn:?
  | |- wp (if ?b then _ else _) _ _ => destruct b eqn:?
  | |- wp (let _ := _ in _) _ _ => cbv zeta
  | |- match ?r with Val _ => _ | Exn _ => _ end => destruct r eqn:?
  end;
  cbv beta iota.

(** The pending state, journal and counter of a machine built by the
    rules. *)
Ltac machine :=
  cbn [comp calls ticks journalled pending logged start fst snd
       logs loading serializedTransaction secondSignerSignature
       secondSignerAddress relay] in *.

Ltac wp_run := repeat wp_step; machine.

(** Membership in a journal built by the rules, one call at a time. *)
Ltac journal_cases H :=
  cbn [app In map fst] in H;
  repeat (destruct H as [H|H]; [try discriminate H|]);
  try contradiction.

Section Properties.

Context {sdk : ChainSdk}.

(** *** What each handler does to the relay slots *)

(** Step 1 never writes the authenticator slot; it writes the transaction
    slot exactly on its completed runs, with the encoding of the
    transaction built on that run. *)
Lemma create_relay (w : World) (s : Component) :
  secondSignerSignature (after Create w s) = secondSignerSignature s /\
  ((outcome Create w s = Val Completed /\
    exists req t,
      buildMultiAgent w req = Val t /\
      transaction_bcsToHex t = Val (serializedTransaction (after Create w s)))
   \/
   (outcome Create w s <> Val Completed /\
    serializedTransaction (after Create w s) = serializedTransaction s)).
Proof.
  unfold after.
  apply (invoke_wp Create w s (fun r m =>
    secondSignerSignature (comp m) = secondSignerSignature s /\
    ((r = Val Completed /\
      exists req t,
        buildMultiAgent w req = Val t /\
        transaction_bcsToHex t = Val (serializedTransaction (comp m)))
     \/
     (r <> Val Completed /\
      serializedTransaction (comp m) = serializedTransaction s)))).
  cbn [handler]; unfold step1_CreateTransaction; wp_run;
    (split; [reflexivity|]);
    first [ left; split; [reflexivity | do 2 eexists; split; eassumption]
          | right; split; [intro; discriminate | reflexivity] ].
Qed.

(** Step 2 never writes the transaction slot; it writes the authenticator
    slot exactly on its completed runs, which start from a non-empty
    transaction slot, with the normalized encoding of the authenticator the
    wallet returned on that run. *)
Lemma countersign_relay (w : World) (s : Component) :
  serializedTransaction (after Countersign w s) = serializedTransaction s /\
  ((outcome Countersign w s = Val Completed /\
    precondition Countersign w s = true /\
    exists t a h,
      signTransaction w t = Val a /\
      authenticator_bcsToHex a = Val h /\
      secondSignerSignature (after Countersign w s) = authenticatorBcs h)
   \/
   (outcome Countersign w s <> Val Completed /\
    secondSignerSignature (after Countersign w s) = secondSignerSignature s)).
Proof.
  unfold after, precondition, connected.
  apply (invoke_wp Countersign w s (fun r m =>
    serializedTransaction (comp m) = serializedTransaction s /\
    ((r = Val Completed /\
      (match account w with Some _ => true | None => false end)
      && Js.truthy (serializedTransaction s) = true /\
      exists t a h,
        signTransaction w t = Val a /\
        authenticator_bcsToHex a = Val h /\
        secondSignerSignature (comp m) = authenticatorBcs h)
     \/
     (r <> Val Completed /\
      secondSignerSignature (comp m) = secondSignerSignature s)))).
  cbn [handler]; unfold step2_SecondSignerSign; wp_run;
    (split; [reflexivity|]);
    first [ right; split; [intro; discriminate | reflexivity]
          | left; split; [reflexivity | split] ].
  - match goal with
    | H : negb _ = false |- _ => apply negb_false_iff in H; now rewrite H
    end.
  - do 3 eexists. split; [eassumption | split; [eassumption | reflexivity]].
Qed.

(** Step 3 writes neither slot. *)
Lemma submit_relay (w : World) (s : Component) :
  relay (after Submit w s) = relay s.
Proof.
  unfold after.
  apply (invoke_wp Submit w s (fun _ m => relay (comp m) = relay s)).
  cbn [handler]; unfold step3_FirstSignerSubmit; wp_run; reflexivity.
Qed.

(** C1.  A step invoked while its precondition is unmet (no connected
    session, or a relay slot it needs is empty) returns at its guard: both
    relay slots are unchanged, exactly one entry is appended to the log and
    it is an ERROR entry, and no call to a collaborator is made. *)
Theorem unmet_precondition_rejected (k : StepId) (w : World) (s : Component) :
  precondition k w s = false ->
  outcome k w s = Val Rejected /\
  relay (after k w s) = relay s /\
  (exists e, logs (after k w s) = logs s ++ [e] /\ is_error e = true)%list /\
  journal k w s = [].
Proof.
  intros H. unfold after, journal.
  apply (invoke_wp k w s (fun r m =>
    r = Val Rejected /\ relay (comp m) = relay s /\
    (exists e, logs (comp m) = logs s ++ [e] /\ is_error e = true)%list /\
    calls m = [])).
  destruct k; unfold precondition, connected in H;
    cbn [handler];
    [unfold step1_CreateTransaction
    |unfold step2_SecondSignerSign
    |unfold step3_FirstSignerSubmit];
    destruct (account w); try discriminate H;
    cbn [andb orb negb] in H |- *.
  - wp_run. repeat split; try (eexists; split); reflexivity.
  - rewrite H. cbn [negb]. wp_run. repeat split; try (eexists; split); reflexivity.
  - wp_run. repeat split; try (eexists; split); reflexivity.
  - assert (Hg : negb (Js.truthy (serializedTransaction s))
                 || negb (Js.truthy (secondSignerSignature s)) = true).
    { rewrite <- negb_andb, H. reflexivity. }
    rewrite Hg. cbn [negb]. wp_run. repeat split; try (eexists; split); reflexivity.
  - wp_run. repeat split; try (eexists; split); reflexivity.
Qed.

(** C2.  What happens to a failure raised in the body of a step.  When a
    collaborator call of a run throws [e], neither relay slot is written on
    that run and [finally] clears the loading flag.  If [e] has a message
    or converts to a string, the [catch] block logs the ERROR entry for it
    as the last entry and the handler returns normally.  If [e] is [null],
    [undefined] or a Symbol, the [catch] block itself throws before it
    logs: no ERROR entry is appended and the exception leaves the
    handler. *)
Theorem failures_caught (k : StepId) (w : World) (s : Component)
    (ev : Event) (e : Thrown) :
  In ev (map fst (journal k w s)) ->
  thrown_by w ev = Some e ->
  relay (after k w s) = relay s /\
  loading (after k w s) = false /\
  match error_text e with
  | Val msg =>
      outcome k w s = Val (Caught e) /\
      exists l entry,
        (logs (after k w s) = l ++ [entry])%list /\
        text entry = "ERROR: " ++ msg /\
        is_error entry = true
  | Exn t =>
      outcome k w s = Exn t /\
      exists l,
        (logs (after k w s) = (if clears_log k w then [] else logs s) ++ l)%list /\
        forallb (fun entry => negb (is_error entry)) l = true
  end.
Proof.
  unfold after, journal. revert ev e.
  apply (invoke_wp k w s (fun r m =>
    forall ev e,
      In ev (map fst (calls m)) ->
      thrown_by w ev = Some e ->
      relay (comp m) = relay s /\
      loading (comp m) = false /\
      match error_text e with
      | Val msg =>
          r = Val (Caught e) /\
          exists l entry,
            (logs (comp m) = l ++ [entry])%list /\
            text entry = "ERROR: " ++ msg /\
            is_error entry = true
      | Exn t =>
          r = Exn t /\
          exists l,
            (logs (comp m) = (if clears_log k w then [] else logs s) ++ l)%list /\
            forallb (fun entry => negb (is_error entry)) l = true
      end)).
  destruct k; unfold clears_log, connected; cbn [handler];
    [unfold step1_CreateTransaction
    |unfold step2_SecondSignerSign
    |unfold step3_FirstSignerSubmit];
    destruct (account w); wp_run;
    intros ev raised Hin Ht; cbn [app In map fst] in Hin;
    repeat (destruct Hin as [Hin|Hin];
            [ subst ev; cbv beta iota delta [thrown_by thrown] in Ht;
              repeat match type of Ht with
                     | context [match ?r with Val _ => _ | Exn _ => _ end] =>
                         match goal with
                         | H : r = _ |- _ => rewrite H in Ht
                         end
                     end;
              first [ discriminate Ht | injection Ht as <- ]
            | ]);
    try contradiction;
    (split; [reflexivity | split; [reflexivity|]]);
    match goal with
    | H : error_text _ = _ |- _ => rewrite H
    end;
    (split; [reflexivity|]).
  all: first
    [ do 2 eexists; split; [reflexivity | split; reflexivity]
    | eexists; split;
      [repeat rewrite <- app_assoc; reflexivity | reflexivity] ].
Qed.

(** C3 (as amended).  A completed Step 1 overwrites the transaction slot
    with the encoding of the transaction built on this run and leaves the
    authenticator slot exactly as it was: an authenticator stored by an
    earlier Step 2 stays in place, and with it Step 3 still passes its
    guard. *)
Theorem create_overwrites_transaction_only (w : World) (s : Component) :
  outcome Create w s = Val Completed ->
  secondSignerSignature (after Create w s) = secondSignerSignature s /\
  (exists req t,
     buildMultiAgent w req = Val t /\
     transaction_bcsToHex t = Val (serializedTransaction (after Create w s))) /\
  (forall w',
     connected w' = true ->
     serializedTransaction (after Create w s) <> "" ->
     secondSignerSignature s <> "" ->
     precondition Submit w' (after Create w s) = true).
Proof.
  intros Hc. destruct (create_relay w s) as [Hsig [[_ Htx] | [Hn _]]].
  - split; [exact Hsig | split; [exact Htx|]].
    intros w' Hw Ht Hs. unfold precondition.
    rewrite Hw, Hsig.
    apply JsFacts.truthy_true in Ht, Hs. now rewrite Ht, Hs.
  - now elim Hn.
Qed.

(** A setter followed by the rest of the handler. *)
Lemma bind_update {A} (f : Component -> Component) (k : unit -> M A) (m : Machine) :
  bind (update f) k m = k tt (pending f m).
Proof. reflexivity. Qed.

(** C4 (as amended).  Step 2, Step 3 and a Step 1 without a connected
    session only append to the log: the log before is a prefix of the log
    after.  A Step 1 with a connected session empties the log first: the
    log after is the one the same click leaves when the log was empty. *)
Theorem log_appended_or_restarted (k : StepId) (w : World) (s : Component) :
  (clears_log k w = false ->
   exists l, (logs (after k w s) = logs s ++ l)%list) /\
  (clears_log k w = true ->
   logs (after k w s) = logs (after k w (forget_logs s))).
Proof.
  split; intros Hc.
  - unfold after.
    apply (invoke_wp k w s (fun _ m =>
      exists l, (logs (comp m) = logs s ++ l)%list)).
    destruct k; unfold clears_log, connected in Hc; cbn [handler];
      [unfold step1_CreateTransaction; destruct (account w); [discriminate Hc|]
      |unfold step2_SecondSignerSign
      |unfold step3_FirstSignerSubmit];
      wp_run; repeat rewrite <- app_assoc; eexists; reflexivity.
  - destruct k; try discriminate Hc.
    unfold clears_log, connected in Hc.
    unfold after, invoke; cbn [handler]; unfold step1_CreateTransaction.
    destruct (account w); [|discriminate Hc].
    unfold setLoading, clearLogs, setLogs. rewrite !bind_update.
    reflexivity.
Qed.


(** *** What Step 3 submits *)

(** Whatever Step 3 submits carries, as its only additional authenticator,
    the one decoded from the authenticator slot as Step 3 found it. *)
Lemma submit_sends_stored_authenticator (w : World) (s : Component)
    (req : SubmitRequest) (c : Component) :
  In (CallSubmitTransaction req, c) (journal Submit w s) ->
  exists bytes a,
    Hex_fromHexString (signatureHex (secondSignerSignature s)) = Val bytes /\
    AccountAuthenticator_deserialize bytes = Val a /\
    additionalSignersAuthenticators req = [a].
Proof.
  unfold journal. revert req c.
  apply (invoke_wp Submit w s (fun _ m =>
    forall req c, In (CallSubmitTransaction req, c) (calls m) ->
    exists bytes a,
      Hex_fromHexString (signatureHex (secondSignerSignature s)) = Val bytes /\
      AccountAuthenticator_deserialize bytes = Val a /\
      additionalSignersAuthenticators req = [a])).
  cbn [handler]; unfold step3_FirstSignerSubmit; wp_run;
    intros req c Hin; cbn [app In] in Hin;
    repeat (destruct Hin as [Hin|Hin]; [try discriminate Hin|]);
    try contradiction;
    inversion Hin; subst;
    (do 2 eexists; split; [reflexivity | split; [eassumption | reflexivity]]).
Qed.

(** A completed Step 3 has called [submitTransaction]. *)
Lemma submit_completed_submits (w : World) (s : Component) :
  outcome Submit w s = Val Completed ->
  exists req c, In (CallSubmitTransaction req, c) (journal Submit w s).
Proof.
  unfold journal.
  apply (invoke_wp Submit w s (fun r m =>
    r = Val Completed ->
    exists req c, In (CallSubmitTransaction req, c) (calls m))).
  cbn [handler]; unfold step3_FirstSignerSubmit; wp_run;
    intros Hc; try discriminate Hc.
  do 2 eexists. cbn [app In].
  repeat (first [left; reflexivity | right]).
Qed.

(** C6.  When Step 2 completes twice in a row, the authenticator slot holds
    the normalized encoding of the authenticator the wallet returned on the
    second run.  Whatever a following Step 3 submits carries the
    authenticator decoded from that encoding, and a Step 3 that completes
    has submitted. *)
Theorem second_signature_is_consumed (w1 w2 w3 : World) (s : Component) :
  outcome Countersign w1 s = Val Completed ->
  outcome Countersign w2 (after Countersign w1 s) = Val Completed ->
  exists t a2 h2,
    signTransaction w2 t = Val a2 /\
    authenticator_bcsToHex a2 = Val h2 /\
    secondSignerSignature (after Countersign w2 (after Countersign w1 s))
      = authenticatorBcs h2 /\
    (forall req c,
       In (CallSubmitTransaction req, c)
          (journal Submit w3 (after Countersign w2 (after Countersign w1 s))) ->
       exists bytes a,
         Hex_fromHexString (signatureHex (authenticatorBcs h2)) = Val bytes /\
         AccountAuthenticator_deserialize bytes = Val a /\
         additionalSignersAuthenticators req = [a]) /\
    (outcome Submit w3 (after Countersign w2 (after Countersign w1 s))
       = Val Completed ->
     exists req c,
       In (CallSubmitTransaction req, c)
          (journal Submit w3 (after Countersign w2 (after Countersign w1 s)))).
Proof.
  intros _ H2.
  destruct (countersign_relay w2 (after Countersign w1 s))
    as [_ [(_ & _ & t & a2 & h2 & Hsign & Hhex & Hslot) | [Hn _]]];
    [|now elim Hn].
  exists t, a2, h2. repeat split; try assumption.
  - intros req c Hin. rewrite <- Hslot.
    exact (submit_sends_stored_authenticator _ _ _ _ Hin).
  - apply submit_completed_submits.
Qed.

(** C9.  With an SDK that never encodes a transaction as the empty string,
    every reachable component state with a non-empty authenticator slot has
    a non-empty transaction slot. *)
Theorem authenticator_implies_transaction (s : Component) :
  (forall t h, transaction_bcsToHex t = Val h -> h <> "") ->
  reachable s ->
  secondSignerSignature s <> "" -> serializedTransaction s <> "".
Proof.
  intros Hhex Hr. induction Hr as [|k w s Hr IH|s Hr IH].
  - intros H. now elim H.
  - destruct k.
    + destruct (create_relay w s) as [Hsig [[_ Htx] | [_ Htx]]].
      * intros _. destruct Htx as (req & t & _ & Ht). exact (Hhex _ _ Ht).
      * rewrite Hsig, Htx. exact IH.
    + destruct (countersign_relay w s) as [Htx [(_ & Hp & _) | [_ Hsig]]].
      * intros _. rewrite Htx. unfold precondition in Hp.
        apply andb_true_iff in Hp. apply JsFacts.truthy_true, Hp.
      * rewrite Hsig, Htx. exact IH.
    + pose proof (submit_relay w s) as Hrel. unfold relay in Hrel.
      inversion Hrel as [[Htx Hsig]]. rewrite Htx, Hsig. exact IH.
  - exact IH.
Qed.

(** C10.  In every Step 1 run in which the operator is asked for the
    secondary-signer address and answers with a non-empty text [a], the
    stored address is [a] when the construction call is made and at the
    end of the run, whatever the outcome: it keeps the new value also when
    address parsing, construction or serialization fails, while the two
    relay slots are left as they were on every run that does not complete.
    (The script is fetched before the prompt, so a run whose fetch fails
    never asks.) *)
Theorem address_stored_before_construction (w : World) (s : Component)
    (msg a : string) :
  In (CallPrompt msg) (map fst (journal Create w s)) ->
  promptAddress w = Some a ->
  a <> "" ->
  secondSignerAddress (after Create w s) = a /\
  (forall req c, In (CallBuildMultiAgent req, c) (journal Create w s) ->
                 secondSignerAddress c = a) /\
  (outcome Create w s <> Val Completed ->
   relay (after Create w s) = relay s).
Proof.
  intros Hin Hp Ha. apply JsFacts.truthy_true in Ha.
  assert (Haddr :
    secondSignerAddress (after Create w s) = a /\
    (forall req c, In (CallBuildMultiAgent req, c) (journal Create w s) ->
                   secondSignerAddress c = a)).
  { revert Hin. unfold after, journal.
    apply (invoke_wp Create w s (fun _ m =>
      In (CallPrompt msg) (map fst (calls m)) ->
      secondSignerAddress (comp m) = a /\
      forall req c, In (CallBuildMultiAgent req, c) (calls m) ->
                    secondSignerAddress c = a)).
    cbn [handler]; unfold step1_CreateTransaction; wp_run;
      intros Hin; journal_cases Hin; clear Hin;
      try discriminate Hp; injection Hp as Hp; subst;
      try congruence;
      (split; [reflexivity|]);
      intros req c Hin; cbn [app In] in Hin;
      repeat (destruct Hin as [Hin|Hin]; [try discriminate Hin|]);
      try contradiction;
      injection Hin as _ <-; reflexivity. }
  destruct Haddr as [Hend Hbuild].
  split; [exact Hend | split; [exact Hbuild|]].
  intros Hn. destruct (create_relay w s) as [Hsig [[Hc _] | [_ Htx]]].
  - now elim Hn.
  - unfold relay. now rewrite Hsig, Htx.
Qed.

(** *** Step 3 does not look at the pending authenticator slot *)










Lemma authenticatorBcs_prefixed (h : string) :
  Js.startsWith "0x" (authenticatorBcs h) = true.
Proof.
  unfold authenticatorBcs.
  destruct (Js.startsWith "0x" h) eqn:Hp; [exact Hp|].
  apply JsFacts.startsWith_append.
Qed.

Lemma signatureHex_prefixed (b : string) : signatureHex ("0x" ++ b) = b.
Proof.
  unfold signatureHex. rewrite JsFacts.startsWith_append.
  exact (JsFacts.slice_append "0x" b).
Qed.

Lemma signatureHex_bare (b : string) :
  Js.startsWith "0x" b = false -> signatureHex b = b.
Proof.
  intros Hp. unfold signatureHex. now rewrite Hp.
Qed.



End Properties.

(** ** Further properties of the handlers *)

Section Handlers.

Context {sdk : ChainSdk}.

(** The loading flag at the end of a click and during its calls. *)
Lemma loading_bracket (k : StepId) (w : World) (s : Component) :
  loading (after k w s) = (if precondition k w s then false else loading s) /\
  (forall ev c, In (ev, c) (journal k w s) -> loading c = true) /\
  (precondition k w s = false -> journal k w s = []).
Proof.
  unfold after, journal.
  apply (invoke_wp k w s (fun _ m =>
    loading (comp m) = (if precondition k w s then false else loading s) /\
    (forall ev c, In (ev, c) (calls m) -> loading c = true) /\
    (precondition k w s = false -> calls m = []))).
  destruct k; unfold precondition, connected; cbn [handler];
    [unfold step1_CreateTransaction
    |unfold step2_SecondSignerSign
    |unfold step3_FirstSignerSubmit];
    destruct (account w);
    [ | | destruct (Js.truthy (serializedTransaction s)) |
      | destruct (Js.truthy (serializedTransaction s));
        destruct (Js.truthy (secondSignerSignature s)) | ];
    cbn [andb orb negb];
    wp_run;
    (split;
     [ reflexivity
     | split;
       [ intros ev c Hin; cbn [app In] in Hin;
         repeat (destruct Hin as [Hin|Hin];
                 [injection Hin as _ <-; reflexivity|]);
         contradiction
       | intros Hp; first [discriminate Hp | reflexivity] ] ]).
Qed.

(** X1.  The loading flag brackets every run that passes its guard: all
    calls to the collaborators are made with the flag set, and the flag is
    cleared at the end of the run, whether it completed, aborted or failed.
    A run rejected at its guard makes no call and leaves the flag as it
    was. *)
Theorem calls_made_while_loading (k : StepId) (w : World) (s : Component) :
  (precondition k w s = true ->
   loading (after k w s) = false /\
   forall ev c, In (ev, c) (journal k w s) -> loading c = true) /\
  (precondition k w s = false ->
   loading (after k w s) = loading s /\ journal k w s = []).
Proof.
  destruct (loading_bracket k w s) as (Hend & Hcalls & Hnone).
  split; intros Hp; rewrite Hp in Hend.
  - split; assumption.
  - split; [exact Hend | exact (Hnone Hp)].
Qed.


(** X3.  [console.error] is called exactly on the runs that end in the
    [catch] block, once, with the value that was thrown. *)
Theorem console_error_iff_caught (k : StepId) (w : World) (s : Component)
    (e : Thrown) :
  In (CallConsoleError e) (map fst (journal k w s)) <->
  outcome k w s = Val (Caught e).
Proof.
  unfold journal.
  apply (invoke_wp k w s (fun r m =>
    In (CallConsoleError e) (map fst (calls m)) <-> r = Val (Caught e))).
  destruct k; cbn [handler];
    [unfold step1_CreateTransaction
    |unfold step2_SecondSignerSign
    |unfold step3_FirstSignerSubmit];
    wp_run;
    (split;
     [ intros Hin; journal_cases Hin; injection Hin as <-; reflexivity
     | intros Hc; try discriminate Hc; injection Hc as <-;
       cbn [app In map fst]; repeat (first [left; reflexivity | right]) ]).
Qed.

(** X4.  When the operator cancels the prompt or confirms it empty, Step 1
    aborts after the script was fetched: nothing is parsed or built, and
    the relay slots and the stored address are left as they were.  With a
    session and a fetched script, that is the only way to abort. *)
Theorem unanswered_prompt_aborts (w : World) (s : Component) (code : list byte) :
  connected w = true ->
  fetchScript w = Val code ->
  (outcome Create w s = Val Aborted <-> prompt_answered w = false) /\
  (prompt_answered w = false ->
   relay (after Create w s) = relay s /\
   secondSignerAddress (after Create w s) = secondSignerAddress s /\
   events Create w s
     = [CallFetch "/transfer_two_by_two.mv"; CallNewMovement;
        CallPrompt "Enter second signer address (0x...):"]).
Proof.
  intros Hc Hf. unfold connected in Hc. unfold after, events, journal.
  apply (invoke_wp Create w s (fun r m =>
    (r = Val Aborted <-> prompt_answered w = false) /\
    (prompt_answered w = false ->
     relay (comp m) = relay s /\
     secondSignerAddress (comp m) = secondSignerAddress s /\
     map fst (calls m)
       = [CallFetch "/transfer_two_by_two.mv"; CallNewMovement;
          CallPrompt "Enter second signer address (0x...):"]))).
  cbn [handler]; unfold step1_CreateTransaction, loadScript, prompt_answered.
  destruct (account w); [|discriminate Hc].
  rewrite Hf.
  destruct (promptAddress w) as [addr|]; [destruct (Js.truthy addr) eqn:Ha|];
    wp_run; try discriminate Ha;
    (split; [split; intros H; first [discriminate H | reflexivity]
            | intros H; first [discriminate H | repeat split; reflexivity]]).
Qed.

(** X5.  Whenever Step 1 calls the transaction builder, the request names
    the connected account as sender and as first destination, the address
    typed at the prompt as the only secondary signer and as second
    destination, the fetched script as bytecode and the three amounts 1000;
    it expires more than 299 and at most 300 seconds after [Date.now()]. *)
Theorem build_request_contents (w : World) (s : Component)
    (req : BuildRequest) (c : Component) :
  In (CallBuildMultiAgent req, c) (journal Create w s) ->
  exists acct addr code from to,
    account w = Some acct /\
    promptAddress w = Some addr /\
    addr <> "" /\
    fetchScript w = Val code /\
    AccountAddress_from (address acct) = Val from /\
    AccountAddress_from addr = Val to /\
    req = {| sender := from;
             secondarySignerAddresses := [to];
             bytecode := code;
             functionArguments :=
               [ArgU64 1000; ArgU64 1000; ArgAddress from; ArgAddress to;
                ArgU64 1000];
             expireTimestamp := (dateNow w / 1000 + 300)%Z |} /\
    (dateNow w + 299000 < 1000 * expireTimestamp req <= dateNow w + 300000)%Z.
Proof.
  unfold journal. revert req c.
  apply (invoke_wp Create w s (fun _ m =>
    forall req c, In (CallBuildMultiAgent req, c) (calls m) ->
    exists acct addr code from to,
      account w = Some acct /\
      promptAddress w = Some addr /\
      addr <> "" /\
      fetchScript w = Val code /\
      AccountAddress_from (address acct) = Val from /\
      AccountAddress_from addr = Val to /\
      req = {| sender := from;
               secondarySignerAddresses := [to];
               bytecode := code;
               functionArguments :=
                 [ArgU64 1000; ArgU64 1000; ArgAddress from; ArgAddress to;
                  ArgU64 1000];
               expireTimestamp := (dateNow w / 1000 + 300)%Z |} /\
      (dateNow w + 299000 < 1000 * expireTimestamp req <= dateNow w + 300000)%Z)).
  cbn [handler]; unfold step1_CreateTransaction; wp_run;
    intros req c Hin; journal_cases Hin;
    injection Hin as <- _;
    match goal with
    | Ha : Js.truthy _ = true |- _ => apply JsFacts.truthy_true in Ha
    end;
    (do 5 eexists; repeat split;
     [ eassumption | eassumption | eassumption
     | cbn [expireTimestamp];
       pose proof (Z.mul_succ_div_gt (dateNow w) 1000 eq_refl); lia
     | cbn [expireTimestamp];
       pose proof (Z.mul_div_le (dateNow w) 1000 eq_refl); lia ]).
Qed.

(** X6.  Each handler makes only the calls of its own stage, and makes a
    call only when its guard held: Step 1 never asks the wallet, Step 2
    never builds, submits or waits, and [submitTransaction] is called by
    Step 3 alone, hence only with a session and both relay slots filled. *)
Theorem calls_belong_to_stage (k : StepId) (w : World) (s : Component)
    (ev : Event) :
  In ev (events k w s) ->
  allowed k ev = true /\ precondition k w s = true.
Proof.
  unfold events, journal. revert ev.
  apply (invoke_wp k w s (fun _ m =>
    forall ev, In ev (map fst (calls m)) ->
    allowed k ev = true /\ precondition k w s = true)).
  destruct k; unfold precondition, connected; cbn [handler];
    [unfold step1_CreateTransaction
    |unfold step2_SecondSignerSign
    |unfold step3_FirstSignerSubmit];
    destruct (account w);
    [ | | destruct (Js.truthy (serializedTransaction s)) |
      | destruct (Js.truthy (serializedTransaction s));
        destruct (Js.truthy (secondSignerSignature s)) | ];
    cbn [andb orb negb];
    wp_run;
    intros ev Hin; cbn [app In map fst] in Hin;
    repeat (destruct Hin as [Hin|Hin]; [subst ev; split; reflexivity|]);
    contradiction.
Qed.

(** *** The answers that make a step complete *)

Lemma create_spec (w : World) (s : Component) :
  (outcome Create w s = Val Completed <-> exists t h, create_path w t h) /\
  (forall t h, create_path w t h ->
     serializedTransaction (after Create w s) = h).
Proof.
  unfold after, create_path.
  apply (invoke_wp Create w s (fun r m =>
    (r = Val Completed <->
     exists t h acct addr code from to,
       account w = Some acct /\
       promptAddress w = Some addr /\
       Js.truthy addr = true /\
       fetchScript w = Val code /\
       AccountAddress_from (address acct) = Val from /\
       AccountAddress_from addr = Val to /\
       buildMultiAgent w
         {| sender := from;
            secondarySignerAddresses := [to];
            bytecode := code;
            functionArguments :=
              [ArgU64 1000; ArgU64 1000; ArgAddress from; ArgAddress to;
               ArgU64 1000];
            expireTimestamp := (dateNow w / 1000 + 300)%Z |} = Val t /\
       transaction_bcsToHex t = Val h) /\
    (forall t h,
       (exists acct addr code from to,
          account w = Some acct /\
          promptAddress w = Some addr /\
          Js.truthy addr = true /\
          fetchScript w = Val code /\
          AccountAddress_from (address acct) = Val from /\
          AccountAddress_from addr = Val to /\
          buildMultiAgent w
            {| sender := from;
               secondarySignerAddresses := [to];
               bytecode := code;
               functionArguments :=
                 [ArgU64 1000; ArgU64 1000; ArgAddress from; ArgAddress to;
                  ArgU64 1000];
               expireTimestamp := (dateNow w / 1000 + 300)%Z |} = Val t /\
          transaction_bcsToHex t = Val h) ->
       serializedTransaction (comp m) = h))).
  cbn [handler]; unfold step1_CreateTransaction; wp_run;
    (split;
     [ split;
       [ intros Hc; first
           [ discriminate Hc
           | do 7 eexists; repeat split; eassumption ]
       | intros (t & h & acct & addr & code & from & to
                 & H1 & H2 & H3 & H4 & H5 & H6 & H7 & H8);
         first [ reflexivity | congruence ] ]
     | intros t h (acct & addr & code & from & to
                   & H1 & H2 & H3 & H4 & H5 & H6 & H7 & H8);
       congruence ]).
Qed.

Lemma countersign_spec (w : World) (s : Component) :
  (outcome Countersign w s = Val Completed <->
   precondition Countersign w s = true /\
   exists t a h, countersign_path w s t a h) /\
  (forall t a h,
     precondition Countersign w s = true ->
     countersign_path w s t a h ->
     secondSignerSignature (after Countersign w s) = authenticatorBcs h).
Proof.
  unfold after, countersign_path.
  apply (invoke_wp Countersign w s (fun r m =>
    (r = Val Completed <->
     precondition Countersign w s = true /\
     exists t a h bytes,
       Hex_fromHexString (serializedTransaction s) = Val bytes /\
       MultiAgentTransaction_deserialize bytes = Val t /\
       signTransaction w t = Val a /\
       authenticator_bcsToHex a = Val h) /\
    (forall t a h,
       precondition Countersign w s = true ->
       (exists bytes,
          Hex_fromHexString (serializedTransaction s) = Val bytes /\
          MultiAgentTransaction_deserialize bytes = Val t /\
          signTransaction w t = Val a /\
          authenticator_bcsToHex a = Val h) ->
       secondSignerSignature (comp m) = authenticatorBcs h))).
  unfold precondition, connected; cbn [handler];
    unfold step2_SecondSignerSign.
  destruct (account w); destruct (Js.truthy (serializedTransaction s));
    cbn [andb negb]; wp_run;
    (split;
     [ split;
       [ intros Hc; first
           [ discriminate Hc
           | split; [reflexivity | do 4 eexists; repeat split; eassumption] ]
       | intros (Hp & t & a' & h & bytes & H1 & H2 & H3 & H4);
         first [ reflexivity | discriminate Hp | congruence ] ]
     | intros t a' h Hp (bytes & H1 & H2 & H3 & H4);
       first [ discriminate Hp | congruence ] ]).
Qed.

Lemma submit_spec (w : World) (s : Component) :
  (outcome Submit w s = Val Completed <->
   precondition Submit w s = true /\
   exists t a r hash success, submit_path w s t a r hash success) /\
  (forall t a r hash success,
     precondition Submit w s = true ->
     submit_path w s t a r hash success ->
     In (CallSubmitTransaction (submitRequest t a r)) (events Submit w s) /\
     In (CallWaitForTransaction hash) (events Submit w s) /\
     exists l e,
       (logs (after Submit w s) = l ++ [e])%list /\
       text e = "Transaction confirmed: " ++ Js.of_bool success).
Proof.
  unfold after, events, journal, submit_path, submitRequest.
  apply (invoke_wp Submit w s (fun r0 m =>
    (r0 = Val Completed <->
     precondition Submit w s = true /\
     exists t a r hash success txBytes sigBytes,
       Hex_fromHexString (serializedTransaction s) = Val txBytes /\
       MultiAgentTransaction_deserialize txBytes = Val t /\
       Hex_fromHexString (signatureHex (secondSignerSignature s)) = Val sigBytes /\
       AccountAuthenticator_deserialize sigBytes = Val r /\
       signTransaction w t = Val a /\
       submitTransaction w
         {| transaction := t;
            senderAuthenticator := a;
            additionalSignersAuthenticators := [r] |} = Val hash /\
       waitForTransaction w hash = Val success) /\
    (forall t a r hash success,
       precondition Submit w s = true ->
       (exists txBytes sigBytes,
          Hex_fromHexString (serializedTransaction s) = Val txBytes /\
          MultiAgentTransaction_deserialize txBytes = Val t /\
          Hex_fromHexString (signatureHex (secondSignerSignature s)) = Val sigBytes /\
          AccountAuthenticator_deserialize sigBytes = Val r /\
          signTransaction w t = Val a /\
          submitTransaction w
            {| transaction := t;
               senderAuthenticator := a;
               additionalSignersAuthenticators := [r] |} = Val hash /\
          waitForTransaction w hash = Val success) ->
       In (CallSubmitTransaction
             {| transaction := t;
                senderAuthenticator := a;
                additionalSignersAuthenticators := [r] |})
          (map fst (calls m)) /\
       In (CallWaitForTransaction hash) (map fst (calls m)) /\
       exists l e,
         (logs (comp m) = l ++ [e])%list /\
         text e = "Transaction confirmed: " ++ Js.of_bool success))).
  unfold precondition, connected; cbn [handler];
    unfold step3_FirstSignerSubmit.
  destruct (account w); destruct (Js.truthy (serializedTransaction s));
    destruct (Js.truthy (secondSignerSignature s));
    cbn [andb orb negb]; wp_run;
    (split;
     [ split;
       [ intros Hc; first
           [ discriminate Hc
           | split; [reflexivity | do 7 eexists; repeat split; eassumption] ]
       | intros (Hp & t & a' & r & hash & success & txBytes & sigBytes
                 & H1 & H2 & H3 & H4 & H5 & H6 & H7);
         first [ reflexivity | discriminate Hp | congruence ] ]
     | intros t a' r hash success Hp
         (txBytes & sigBytes & H1 & H2 & H3 & H4 & H5 & H6 & H7);
       first [ discriminate Hp | congruence | idtac ] ]).
  repeat match goal with
         | H : Val _ = Val _ |- _ => injection H as H; subst
         | H1 : ?f = Val ?x, H2 : ?f = Val ?y |- _ => rewrite H1 in H2
         end.
  cbn [app In map fst].
  split; [repeat (first [left; reflexivity | right])|].
  split; [repeat (first [left; reflexivity | right])|].
  do 2 eexists. split; reflexivity.
Qed.

(** X7.  Step 1 completes exactly when the session has an account, the
    script is fetched, the prompt is answered, both addresses parse, the
    builder returns a transaction and the SDK encodes it; the transaction
    slot then holds that encoding and the authenticator slot is as
    before.  On every other run the transaction slot is as before too. *)
Theorem create_completes_iff_answered (w : World) (s : Component) :
  (outcome Create w s = Val Completed <-> exists t h, create_path w t h) /\
  (forall t h,
     create_path w t h ->
     relay (after Create w s) = (h, secondSignerSignature s)) /\
  ((forall t h, ~ create_path w t h) ->
   relay (after Create w s) = relay s).
Proof.
  destruct (create_spec w s) as [Hiff Hslot].
  destruct (create_relay w s) as [Hsig Hcases].
  split; [exact Hiff|]. split.
  - intros t h Hp. unfold relay. now rewrite (Hslot t h Hp), Hsig.
  - intros Hno. unfold relay. rewrite Hsig.
    destruct Hcases as [[Hc _] | [_ Htx]].
    + apply Hiff in Hc. destruct Hc as (t & h & Hp). now elim (Hno t h).
    + now rewrite Htx.
Qed.

(** X8.  Step 2 completes exactly when its guard holds, the stored
    transaction decodes, the wallet signs it and the SDK encodes the
    authenticator; the authenticator slot then holds that encoding with
    [0x] in front, and the transaction slot is as before. *)
Theorem countersign_completes_iff_answered (w : World) (s : Component) :
  (outcome Countersign w s = Val Completed <->
   precondition Countersign w s = true /\
   exists t a h, countersign_path w s t a h) /\
  (forall t a h,
     precondition Countersign w s = true ->
     countersign_path w s t a h ->
     relay (after Countersign w s) = (serializedTransaction s, authenticatorBcs h) /\
     Js.startsWith "0x" (secondSignerSignature (after Countersign w s)) = true).
Proof.
  destruct (countersign_spec w s) as [Hiff Hslot].
  destruct (countersign_relay w s) as [Htx _].
  split; [exact Hiff|].
  intros t a h Hp Hpath. unfold relay.
  rewrite (Hslot t a h Hp Hpath), Htx.
  split; [reflexivity | apply authenticatorBcs_prefixed].
Qed.

(** X9.  Step 3 completes exactly when its guard holds, both stored
    artifacts decode, the wallet signs, the submission returns a hash and
    the confirmation query returns; the reported [success] flag is only
    logged, so a transaction that failed on chain still ends Step 3 in its
    [try] block, with the line [Transaction confirmed: false] last.  The
    relay slots are as before. *)
Theorem submit_completes_iff_answered (w : World) (s : Component) :
  (outcome Submit w s = Val Completed <->
   precondition Submit w s = true /\
   exists t a r hash success, submit_path w s t a r hash success) /\
  (forall t a r hash success,
     precondition Submit w s = true ->
     submit_path w s t a r hash success ->
     In (CallSubmitTransaction (submitRequest t a r)) (events Submit w s) /\
     In (CallWaitForTransaction hash) (events Submit w s) /\
     (exists l e,
        (logs (after Submit w s) = l ++ [e])%list /\
        text e = "Transaction confirmed: " ++ Js.of_bool success) /\
     relay (after Submit w s) = relay s).
Proof.
  destruct (submit_spec w s) as [Hiff Hrun].
  split; [exact Hiff|].
  intros t a r hash success Hp Hpath.
  destruct (Hrun t a r hash success Hp Hpath) as (Hsub & Hwait & Hlog).
  repeat split; try assumption. apply submit_relay.
Qed.

(** X10.  The three steps compose.  When Step 1, Step 2 and Step 3 complete
    one after the other, Step 3 submits the transaction decoded from the
    encoding that Step 1 stored, which is the transaction the second
    signer's wallet signed in Step 2; the request carries the first
    signer's authenticator for it and, as the only additional one, the
    authenticator decoded from what Step 2 stored. *)
Theorem flow_composes (w1 w2 w3 : World) (s : Component) :
  outcome Create w1 s = Val Completed ->
  outcome Countersign w2 (after Create w1 s) = Val Completed ->
  outcome Submit w3 (after Countersign w2 (after Create w1 s)) = Val Completed ->
  exists t1 h1 bytes t a2 h2 sigBytes r a3 hash success,
    create_path w1 t1 h1 /\
    Hex_fromHexString h1 = Val bytes /\
    MultiAgentTransaction_deserialize bytes = Val t /\
    signTransaction w2 t = Val a2 /\
    authenticator_bcsToHex a2 = Val h2 /\
    Hex_fromHexString (signatureHex (authenticatorBcs h2)) = Val sigBytes /\
    AccountAuthenticator_deserialize sigBytes = Val r /\
    signTransaction w3 t = Val a3 /\
    submitTransaction w3 (submitRequest t a3 r) = Val hash /\
    waitForTransaction w3 hash = Val success /\
    In (CallSubmitTransaction (submitRequest t a3 r))
       (events Submit w3 (after Countersign w2 (after Create w1 s))).
Proof.
  intros H1 H2 H3.
  destruct (create_spec w1 s) as [Hiff1 Hslot1].
  apply Hiff1 in H1. destruct H1 as (t1 & h1 & Hp1).
  pose proof (Hslot1 t1 h1 Hp1) as Htx1.
  destruct (countersign_spec w2 (after Create w1 s)) as [Hiff2 Hslot2].
  apply Hiff2 in H2. destruct H2 as (Hg2 & t & a2 & h2 & Hp2).
  pose proof (Hslot2 t a2 h2 Hg2 Hp2) as Hsig2.
  destruct (countersign_relay w2 (after Create w1 s)) as [Htx2 _].
  destruct (submit_spec w3 (after Countersign w2 (after Create w1 s)))
    as [Hiff3 Hrun3].
  apply Hiff3 in H3. destruct H3 as (Hg3 & t' & a3 & r & hash & success & Hp3).
  destruct (Hrun3 t' a3 r hash success Hg3 Hp3) as (Hsub & _ & _).
  destruct Hp2 as (bytes & Hb & Ht & Hs2 & Hh2).
  destruct Hp3 as (txBytes & sigBytes & Hb' & Ht' & Hsb & Hr & Hs3 & Hsubmit & Hwait).
  rewrite Htx2, Htx1 in Hb'. rewrite Htx1 in Hb. rewrite Hsig2 in Hsb.
  assert (t' = t) by congruence. subst t'.
  exists t1, h1, bytes, t, a2, h2, sigBytes, r, a3, hash, success.
  repeat split; assumption.
Qed.

(** X11.  Whatever Step 3 passes to [submitTransaction], also on a run
    that fails afterwards, is the decoded stored transaction with the
    authenticator the wallet has just returned for it and the decoded
    stored authenticator; a run calls [submitTransaction] at most once,
    and waits only for the hash that call returned. *)
Theorem submit_request_determined (w : World) (s : Component) :
  (forall req,
     In (CallSubmitTransaction req) (events Submit w s) ->
     exists txBytes sigBytes t a r,
       Hex_fromHexString (serializedTransaction s) = Val txBytes /\
       MultiAgentTransaction_deserialize txBytes = Val t /\
       Hex_fromHexString (signatureHex (secondSignerSignature s)) = Val sigBytes /\
       AccountAuthenticator_deserialize sigBytes = Val r /\
       signTransaction w t = Val a /\
       req = submitRequest t a r) /\
  List.length (filter is_submission (events Submit w s)) <= 1 /\
  (forall hash,
     In (CallWaitForTransaction hash) (events Submit w s) ->
     exists req,
       In (CallSubmitTransaction req) (events Submit w s) /\
       submitTransaction w req = Val hash).
Proof.
  unfold events, journal, submitRequest.
  apply (invoke_wp Submit w s (fun _ m =>
    (forall req,
       In (CallSubmitTransaction req) (map fst (calls m)) ->
       exists txBytes sigBytes t a r,
         Hex_fromHexString (serializedTransaction s) = Val txBytes /\
         MultiAgentTransaction_deserialize txBytes = Val t /\
         Hex_fromHexString (signatureHex (secondSignerSignature s)) = Val sigBytes /\
         AccountAuthenticator_deserialize sigBytes = Val r /\
         signTransaction w t = Val a /\
         req = {| transaction := t;
                  senderAuthenticator := a;
                  additionalSignersAuthenticators := [r] |}) /\
    List.length (filter is_submission (map fst (calls m))) <= 1 /\
    (forall hash,
       In (CallWaitForTransaction hash) (map fst (calls m)) ->
       exists req,
         In (CallSubmitTransaction req) (map fst (calls m)) /\
         submitTransaction w req = Val hash))).
  cbn [handler]; unfold step3_FirstSignerSubmit; wp_run;
    (split;
     [ intros req Hin; journal_cases Hin; injection Hin as <-;
       (do 5 eexists; repeat split; eassumption)
     | split;
       [ cbn [app map fst filter is_submission List.length]; lia
       | intros hash Hin; journal_cases Hin; injection Hin as <-;
         (eexists; split;
          [ cbn [app In map fst]; repeat (first [left; reflexivity | right])
          | assumption ]) ] ]).
Qed.

End Handlers.

(** ** What the handlers read *)

Section Comparison.

Context {sdk : ChainSdk}.

Lemma related_ret {A} (a : A) : related (ret a) (ret a).
Proof. intros m m' H. split; [reflexivity | exact H]. Qed.

Lemma related_bind {A B} (c c' : M A) (k k' : A -> M B) :
  related c c' -> (forall a, related (k a) (k' a)) ->
  related (bind c k) (bind c' k').
Proof.
  intros Hc Hk m m' H. unfold bind.
  destruct (Hc m m' H) as [Hr Hm].
  destruct (c m) as [[a|e] m1], (c' m') as [[a'|e'] m1'];
    cbn [fst snd] in *; try discriminate Hr.
  - injection Hr as <-. exact (Hk a m1 m1' Hm).
  - injection Hr as <-. split; [reflexivity | exact Hm].
Qed.

Lemma related_call {A} (ev : Event) (answer : Res A) :
  related (call ev answer) (call ev answer).
Proof.
  intros m m' [Hr Hc]. unfold call, journalled, agree.
  cbn [fst snd comp calls]. rewrite !map_app, Hc.
  repeat split. exact Hr.
Qed.

Lemma related_eval {A} (r : Res A) : related (eval r) (eval r).
Proof. intros m m' H. split; [reflexivity | exact H]. Qed.

Lemma related_update (f f' : Component -> Component) :
  (forall c c', relay c = relay c' -> relay (f c) = relay (f' c')) ->
  related (update f) (update f').
Proof.
  intros Hf m m' [Hr Hc]. unfold update, pending, agree.
  cbn [fst snd comp calls]. repeat split; [apply Hf, Hr | exact Hc].
Qed.

Lemma related_log (w w' : World) (msg msg' : string) :
  related (log w msg) (log w' msg').
Proof.
  intros m m' [Hr Hc]. unfold log, logged, pending, agree.
  cbn [fst snd comp calls]. repeat split; assumption.
Qed.

Lemma related_setLoading (b b' : bool) : related (setLoading b) (setLoading b').
Proof. apply related_update. intros c c' H. exact H. Qed.

Lemma related_setLogs (f f' : list LogEntry -> list LogEntry) :
  related (setLogs f) (setLogs f').
Proof. apply related_update. intros c c' H. exact H. Qed.

Lemma related_setSecondSignerAddress (v v' : string) :
  related (setSecondSignerAddress v) (setSecondSignerAddress v').
Proof. apply related_update. intros c c' H. exact H. Qed.

Lemma related_setSerializedTransaction (v : string) :
  related (setSerializedTransaction v) (setSerializedTransaction v).
Proof.
  apply related_update. intros c c' H. unfold relay in *.
  cbn [serializedTransaction secondSignerSignature]. congruence.
Qed.

Lemma related_setSecondSignerSignature (v : string) :
  related (setSecondSignerSignature v) (setSecondSignerSignature v).
Proof.
  apply related_update. intros c c' H. unfold relay in *.
  cbn [serializedTransaction secondSignerSignature]. congruence.
Qed.

Lemma related_try {A} (body body' : M A) (h h' : Thrown -> M A)
    (fin fin' : M unit) :
  related body body' -> (forall e, related (h e) (h' e)) -> related fin fin' ->
  related (tryCatchFinally body h fin) (tryCatchFinally body' h' fin').
Proof.
  intros Hb Hh Hf m m' H. unfold tryCatchFinally.
  destruct (Hb m m' H) as [Hr Hm].
  destruct (body m) as [[a|e] m1], (body' m') as [[a'|e'] m1'];
    cbn [fst snd] in *; try discriminate Hr.
  - injection Hr as <-.
    destruct (Hf m1 m1' Hm) as [Hr2 Hm2].
    destruct (fin m1) as [[u|e] m2], (fin' m1') as [[u'|e'] m2'];
      cbn [fst snd] in *; try discriminate Hr2.
    + split; [reflexivity | exact Hm2].
    + injection Hr2 as <-. split; [reflexivity | exact Hm2].
  - injection Hr as <-.
    destruct (Hh e m1 m1' Hm) as [Hr1 Hm1].
    destruct (h e m1) as [r1 m2], (h' e m1') as [r1' m2'];
      cbn [fst snd] in *. subst r1'.
    destruct (Hf m2 m2' Hm1) as [Hr2 Hm2].
    destruct (fin m2) as [[u|e2] m3], (fin' m2') as [[u'|e2'] m3'];
      cbn [fst snd] in *; try discriminate Hr2.
    + split; [reflexivity | exact Hm2].
    + injection Hr2 as <-. split; [reflexivity | exact Hm2].
Qed.

Ltac related_step :=
  lazymatch goal with
  | |- related (ret _) (ret _) => apply related_ret
  | |- related (bind _ _) (bind _ _) => apply related_bind; [|intro]
  | |- related (call _ _) (call _ _) => apply related_call
  | |- related (eval _) (eval _) => apply related_eval
  | |- related (log _ _) (log _ _) => apply related_log
  | |- related (setLoading _) (setLoading _) => apply related_setLoading
  | |- related clearLogs clearLogs => apply related_setLogs
  | |- related (setSecondSignerAddress _) (setSecondSignerAddress _) =>
      apply related_setSecondSignerAddress
  | |- related (setSerializedTransaction _) (setSerializedTransaction _) =>
      apply related_setSerializedTransaction
  | |- related (setSecondSignerSignature _) (setSecondSignerSignature _) =>
      apply related_setSecondSignerSignature
  | |- related (tryCatchFinally _ _ _) (tryCatchFinally _ _ _) =>
      apply related_try; [|intro|]
  | |- related (catchBlock _ _) (catchBlock _ _) => unfold catchBlock
  | |- related (loadScript _) (loadScript _) => unfold loadScript
  | |- related (deserializeTransaction _) (deserializeTransaction _) =>
      unfold deserializeTransaction
  | |- related (deserializeAuthenticator _) (deserializeAuthenticator _) =>
      unfold deserializeAuthenticator
  | |- related (match ?x with Some _ => _ | None => _ end)
               (match ?x with Some _ => _ | None => _ end) => destruct x
  | |- related (if ?b then _ else _) (if ?b then _ else _) => destruct b
  | |- related (let _ := _ in _) (let _ := _ in _) => cbv zeta
  end.

(** A click that starts from another component state with the same relay
    slots ends the same, makes the same calls and leaves the same relay
    slots. *)
Lemma handler_reads_relay_only (k : StepId) (w : World) (s s' : Component) :
  relay s = relay s' ->
  outcome k w s = outcome k w s' /\
  events k w s = events k w s' /\
  relay (after k w s) = relay (after k w s').
Proof.
  intros H.
  assert (Hrel : related (handler k w s) (handler k w s')).
  { unfold relay in H. injection H as Htx Hsig.
    destruct k; cbn [handler];
      [unfold step1_CreateTransaction
      |unfold step2_SecondSignerSign
      |unfold step3_FirstSignerSubmit];
      rewrite ?Htx, ?Hsig; repeat related_step. }
  assert (Hstart : agree (start s) (start s')).
  { split; [exact H | reflexivity]. }
  destruct (Hrel _ _ Hstart) as [Hr [Hrelay Hcalls]].
  unfold outcome, events, after, journal, invoke.
  repeat split; assumption.
Qed.

(** X12.  With the given relay slots, a click does the same whatever the
    log, the loading flag and the stored secondary-signer address hold: the
    handlers never read them (in particular the address typed in Step 1 is
    stored and never used again). *)
Theorem handlers_ignore_log_loading_address (k : StepId) (w : World)
    (s : Component) (l : list LogEntry) (b : bool) (v : string) :
  let s' := {| logs := l;
               loading := b;
               serializedTransaction := serializedTransaction s;
               secondSignerSignature := secondSignerSignature s;
               secondSignerAddress := v |} in
  outcome k w s' = outcome k w s /\
  events k w s' = events k w s /\
  relay (after k w s') = relay (after k w s).
Proof.
  intros s'. apply handler_reads_relay_only. reflexivity.
Qed.

(** Step 2 and Step 3 use the connected account only for a log line. *)
Lemma account_only_logged (k : StepId) (w : World) (s : Component)
    (a a' : AccountInfo) :
  k <> Create ->
  related (handler k (with_account a w) s) (handler k (with_account a' w) s).
Proof.
  intros Hk. destruct k; [now elim Hk | |]; cbn [handler];
    [unfold step2_SecondSignerSign | unfold step3_FirstSignerSubmit];
    cbn [with_account account signTransaction submitTransaction
         waitForTransaction];
    repeat related_step.
Qed.

(** X13.  Step 2 and Step 3 do not check who is connected: with any two
    accounts, and the same answers of the wallet and the SDK, they end the
    same, make the same calls and leave the same relay slots.  The account
    address only appears in a log line. *)
Theorem signer_identity_not_checked (w : World) (s : Component)
    (a a' : AccountInfo) :
  (outcome Countersign (with_account a w) s
     = outcome Countersign (with_account a' w) s /\
   events Countersign (with_account a w) s
     = events Countersign (with_account a' w) s /\
   relay (after Countersign (with_account a w) s)
     = relay (after Countersign (with_account a' w) s)) /\
  (outcome Submit (with_account a w) s
     = outcome Submit (with_account a' w) s /\
   events Submit (with_account a w) s
     = events Submit (with_account a' w) s /\
   relay (after Submit (with_account a w) s)
     = relay (after Submit (with_account a' w) s)).
Proof.
  assert (Hstart : agree (start s) (start s)) by (split; reflexivity).
  split.
  - destruct (account_only_logged Countersign w s a a'
                ltac:(discriminate) _ _ Hstart) as [Hr [Hrelay Hcalls]].
    unfold outcome, events, after, journal, invoke.
    repeat split; assumption.
  - destruct (account_only_logged Submit w s a a'
                ltac:(discriminate) _ _ Hstart) as [Hr [Hrelay Hcalls]].
    unfold outcome, events, after, journal, invoke.
    repeat split; assumption.
Qed.

(** X14.  Step 3 is not a terminal stage: after it, completed or not, every
    step behaves as it would have before it.  In particular Step 3 can be
    clicked again and, with the same answers, makes the same calls,
    submission included. *)
Theorem submit_changes_nothing_for_later_clicks (w w' : World) (s : Component)
    (k : StepId) :
  outcome k w' (after Submit w s) = outcome k w' s /\
  events k w' (after Submit w s) = events k w' s /\
  relay (after k w' (after Submit w s)) = relay (after k w' s).
Proof.
  apply handler_reads_relay_only. apply submit_relay.
Qed.

(** X15.  What Step 2 stores and what Step 3 decodes fit together: Step 3
    hands to the decoder the wallet's encoding without its [0x], whether
    or not the wallet's encoding carried one; normalizing twice is
    normalizing once. *)
Theorem stored_prefix_round_trip (h : string) :
  signatureHex (authenticatorBcs h) = signatureHex h /\
  authenticatorBcs (authenticatorBcs h) = authenticatorBcs h /\
  (Js.startsWith "0x" h = false -> signatureHex (authenticatorBcs h) = h) /\
  (forall b, h = "0x" ++ b -> signatureHex (authenticatorBcs h) = b).
Proof.
  assert (Hidem : authenticatorBcs (authenticatorBcs h) = authenticatorBcs h).
  { unfold authenticatorBcs at 1. now rewrite authenticatorBcs_prefixed. }
  destruct (Js.startsWith "0x" h) eqn:Hp.
  - assert (Hsame : authenticatorBcs h = h).
    { unfold authenticatorBcs. now rewrite Hp. }
    rewrite Hsame. repeat split; try discriminate; try exact Hsame.
    intros b ->. apply signatureHex_prefixed.
  - assert (Hadd : authenticatorBcs h = "0x" ++ h).
    { unfold authenticatorBcs. now rewrite Hp. }
    repeat split; try exact Hidem.
    + rewrite Hadd, signatureHex_prefixed. symmetry.
      now apply signatureHex_bare.
    + intros _. rewrite Hadd. apply signatureHex_prefixed.
    + intros b ->. rewrite JsFacts.startsWith_append in Hp. discriminate Hp.
Qed.

End Comparison.

(** ** The rendered component and the handlers *)

Section Screen.

Context {sdk : ChainSdk}.

Lemma no_button_among_log_lines (a : Action) (l : list LogEntry) :
  clickable (map (fun e => LogLine (logColor (render e)) (render e)) l) a
    = false.
Proof.
  unfold clickable. induction l as [|e l IH]; [reflexivity | exact IH].
Qed.

(** A step button can be clicked when the wallet is connected and the
    button is not disabled. *)
Lemma clickable_step (isConnected : bool) (acct : option AccountInfo)
    (walletName : option string) (s : Component) (k : StepId) :
  clickable (view isConnected acct walletName s) (ClickStep k)
    = isConnected && negb (step_disabled k s).
Proof.
  unfold view, clickable. rewrite !existsb_app.
  assert (Hlog :
    existsb (fun n => match n with
                      | Button _ false a' => Action_eqb (ClickStep k) a'
                      | _ => false
                      end)
      match logs s with
      | [] => [Paragraph "No logs yet. Connect wallet and run the steps."]
      | _ :: _ => map (fun e => LogLine (logColor (render e)) (render e)) (logs s)
      end = false).
  { destruct (logs s) as [|e l]; [reflexivity|].
    apply (no_button_among_log_lines (ClickStep k) (e :: l)). }
  rewrite Hlog. unfold step_disabled.
  destruct isConnected, k, (loading s),
    (Js.truthy (serializedTransaction s)),
    (Js.truthy (secondSignerSignature s)); reflexivity.
Qed.

(** Between clicks the loading flag is down. *)
Lemma reachable_not_loading (s : Component) : reachable s -> loading s = false.
Proof.
  intros Hr. induction Hr as [|k w s Hr IH|s Hr IH].
  - reflexivity.
  - destruct (loading_bracket k w s) as (Hend & _ & _).
    rewrite Hend, IH. now destruct (precondition k w s).
  - exact IH.
Qed.

(** A stored authenticator comes with a stored transaction. *)
Lemma reachable_slots (s : Component) :
  (forall t h, transaction_bcsToHex t = Val h -> h <> "") ->
  reachable s ->
  Js.truthy (secondSignerSignature s) = true ->
  Js.truthy (serializedTransaction s) = true.
Proof.
  intros Hhex Hr. induction Hr as [|k w s Hr IH|s Hr IH].
  - intros H. discriminate H.
  - destruct k.
    + destruct (create_relay w s) as [Hsig [[_ Htx] | [_ Htx]]].
      * intros _. destruct Htx as (req & t & _ & Ht).
        apply JsFacts.truthy_true. exact (Hhex _ _ Ht).
      * rewrite Hsig, Htx. exact IH.
    + destruct (countersign_relay w s) as [Htx [(_ & Hp & _) | [_ Hsig]]].
      * intros _. rewrite Htx. unfold precondition in Hp.
        apply andb_true_iff in Hp. apply Hp.
      * rewrite Hsig, Htx. exact IH.
    + pose proof (submit_relay w s) as Hrel. unfold relay in Hrel.
      injection Hrel as Htx Hsig. rewrite Htx, Hsig. exact IH.
  - exact IH.
Qed.

(** X16.  A step that can be clicked passes its guard.  In a reachable
    state, with an SDK that never encodes a transaction as the empty
    string and an account in the session, a step button that is shown and
    not disabled starts a run that is not rejected; the Step 3 button looks
    at the authenticator slot only, and the transaction slot is filled
    whenever that one is. *)
Theorem clickable_step_passes_guard (isConnected : bool)
    (walletName : option string) (w : World) (s : Component) (k : StepId) :
  (forall t h, transaction_bcsToHex t = Val h -> h <> "") ->
  reachable s ->
  connected w = true ->
  clickable (view isConnected (account w) walletName s) (ClickStep k) = true ->
  precondition k w s = true /\ outcome k w s <> Val Rejected.
Proof.
  intros Hhex Hr Hc Hclick.
  rewrite clickable_step in Hclick.
  apply andb_true_iff in Hclick. destruct Hclick as [_ Hen].
  apply negb_true_iff in Hen.
  assert (Hp : precondition k w s = true).
  { unfold precondition. rewrite Hc.
    destruct k; unfold step_disabled in Hen; [reflexivity | |];
      apply orb_false_iff in Hen; destruct Hen as [_ Hen];
      apply negb_false_iff in Hen.
    - now rewrite Hen.
    - now rewrite (reachable_slots s Hhex Hr Hen), Hen. }
  split; [exact Hp|].
  unfold outcome.
  apply (invoke_wp k w s (fun r _ => r <> Val Rejected)).
  unfold precondition, connected in Hp.
  destruct k; cbn [handler];
    [unfold step1_CreateTransaction
    |unfold step2_SecondSignerSign
    |unfold step3_FirstSignerSubmit];
    destruct (account w); try discriminate Hp;
    cbn [andb] in Hp.
  - wp_run; discriminate.
  - rewrite Hp. cbn [negb]. wp_run; discriminate.
  - apply andb_true_iff in Hp. destruct Hp as [Ht Hs].
    rewrite Ht, Hs. cbn [negb orb]. wp_run; discriminate.
Qed.

(** X17.  The buttons follow the run.  A click is modelled to its end,
    every awaited call having settled (a call that never settles is not
    covered).  At every collaborator call of a run the pending state has
    all three step buttons disabled.  When the run has ended, however it
    ended, the loading flag is down; so in every state between clicks,
    with a connected wallet, Step 1 can be clicked, Step 2 exactly when a
    transaction is stored and Step 3 exactly when an authenticator is
    stored. *)
Theorem buttons_follow_slots (acct : option AccountInfo)
    (walletName : option string) (s : Component) :
  reachable s ->
  (loading s = false /\
   clickable (view true acct walletName s) (ClickStep Create) = true /\
   clickable (view true acct walletName s) (ClickStep Countersign)
     = Js.truthy (serializedTransaction s) /\
   clickable (view true acct walletName s) (ClickStep Submit)
     = Js.truthy (secondSignerSignature s)) /\
  (forall k w ev c k',
     In (ev, c) (journal k w s) ->
     clickable (view true acct walletName c) (ClickStep k') = false) /\
  (forall k w, loading (after k w s) = false).
Proof.
  intros Hr. pose proof (reachable_not_loading s Hr) as Hl.
  split; [|split].
  - split; [exact Hl|].
    rewrite !clickable_step. unfold step_disabled. rewrite Hl.
    cbn [andb orb negb]. rewrite !negb_involutive. repeat split.
  - intros k w ev c k' Hin.
    destruct (loading_bracket k w s) as (_ & Hcalls & _).
    pose proof (Hcalls ev c Hin) as Hc.
    rewrite clickable_step. unfold step_disabled. rewrite Hc.
    now destruct k'.
  - intros k w. apply reachable_not_loading, reachable_step, Hr.
Qed.

Lemma includes_prefixed (p t : string) :
  p <> "" -> Js.startsWith p t = true -> JsText.includes p t = true.
Proof.
  unfold JsText.includes, Js.startsWith. intros Hp H.
  destruct t as [|c t].
  - destruct p; [now elim Hp | discriminate H].
  - cbn [index]. now rewrite H.
Qed.

Lemma includes_after (p a t : string) :
  JsText.includes p t = true -> JsText.includes p (a ++ t) = true.
Proof.
  unfold JsText.includes. intros H.
  induction a as [|c a IH]; [exact H|].
  cbn [append index].
  destruct (prefix p (String c (a ++ t))); [reflexivity|].
  destruct (index 0 p (a ++ t)); [reflexivity | discriminate IH].
Qed.

(** X18.  Every ERROR entry of the log is shown in red, whatever its time
    stamp and whatever else its message contains (the test for ERROR comes
    before the test for SUCCESS). *)
Theorem error_entries_shown_red (isConnected : bool) (acct : option AccountInfo)
    (walletName : option string) (s : Component) (e : LogEntry) :
  In e (logs s) ->
  is_error e = true ->
  logColor (render e) = "#ff6b6b" /\
  In (LogLine "#ff6b6b" (render e)) (view isConnected acct walletName s).
Proof.
  intros Hin He.
  assert (Hred : logColor (render e) = "#ff6b6b").
  { unfold logColor, render.
    rewrite (includes_after "ERROR" "[" (stamp e ++ "] " ++ text e)).
    - reflexivity.
    - apply includes_after. apply (includes_after "ERROR" "] " (text e)).
      apply includes_prefixed; [discriminate | exact He]. }
  split; [exact Hred|].
  unfold view. repeat (apply in_or_app; right).
  destruct (logs s) as [|e0 l] eqn:Hl; [contradiction|].
  rewrite <- Hred.
  exact (in_map (fun e => LogLine (logColor (render e)) (render e)) _ _ Hin).
Qed.

Lemma substring0_length (n : nat) (s : string) :
  String.length (Js.substring0 n s) = Nat.min n (String.length s).
Proof.
  unfold Js.substring0. revert s.
  induction n as [|n IH]; intros [|c s]; cbn; try reflexivity.
  now rewrite IH.
Qed.

Lemma substring0_whole (n : nat) (s : string) :
  String.length s <= n -> Js.substring0 n s = s.
Proof.
  unfold Js.substring0. revert s.
  induction n as [|n IH]; intros [|c s] H; cbn in *; try reflexivity.
  - lia.
  - rewrite IH; [reflexivity | lia].
Qed.

Lemma append_length (a b : string) :
  String.length (a ++ b) = String.length a + String.length b.
Proof.
  induction a as [|c a IH]; cbn; [reflexivity | now rewrite IH].
Qed.

(** X19.  The display of a relay slot shows [(none)] exactly for the empty
    slot.  A stored value is shown by its first 40 characters followed by
    three dots, at most 43 characters in all; the dots are added also when
    the value is shorter than 40 characters and nothing was cut. *)
Theorem slot_display (slot : string) :
  (slotLine slot = "(none)" <-> slot = "") /\
  (slot <> "" ->
   slotLine slot = Js.substring0 40 slot ++ "..." /\
   String.length (slotLine slot) = Nat.min 40 (String.length slot) + 3 /\
   (String.length slot <= 40 -> slotLine slot = slot ++ "...")).
Proof.
  assert (Hfull : slot <> "" -> slotLine slot = Js.substring0 40 slot ++ "...").
  { intros Hne. unfold slotLine.
    apply JsFacts.truthy_true in Hne. now rewrite Hne. }
  split.
  - split.
    + intros H. destruct slot as [|c1 slot]; [reflexivity|].
      rewrite Hfull in H by discriminate.
      assert (Hlen : String.length (Js.substring0 40 (String c1 slot) ++ "...")
                     = 6) by now rewrite H.
      rewrite append_length, substring0_length in Hlen. cbn in Hlen.
      destruct slot as [|c2 [|c3 [|c4 slot]]]; cbn in Hlen; try lia;
        cbn in H; discriminate H.
    + intros ->. reflexivity.
  - intros Hne. rewrite (Hfull Hne). split; [reflexivity|]. split.
    + now rewrite append_length, substring0_length.
    + intros Hshort. now rewrite substring0_whole.
Qed.

End Screen.

(** ** Concrete runs *)

Section Runs.

Import Mock Scenario.

(** Closed equations between runs are settled by evaluation. *)
Ltac by_running := vm_compute; reflexivity.

Lemma mock_hex_nonempty (t : MultiAgentTransaction) (h : string) :
  transaction_bcsToHex t = Val h -> h <> "".
Proof.
  cbn. intros H. injection H as <-. discriminate.
Defined.

(** C1, Scenario E: Step 3 with only the transaction slot filled. *)
Lemma unmet_precondition_rejected_witness :
  precondition Submit w_submit s_created = false /\
  outcome Submit w_submit s_created = Val Rejected /\
  relay (after Submit w_submit s_created) = relay s_created /\
  journal Submit w_submit s_created = [].
Proof.
  split; [by_running|].
  destruct (unmet_precondition_rejected Submit w_submit s_created eq_refl)
    as (Ho & Hr & _ & Hj).
  split; [exact Ho | split; [exact Hr | exact Hj]].
Defined.

(** C2: a failure with a message is caught and logged (the script cannot
    be fetched); a wallet that rejects with [undefined] makes the [catch]
    block throw: Step 2 ends with a [TypeError] leaving the handler and
    without an ERROR entry. *)
Lemma failures_caught_witness :
  (In (CallFetch "/transfer_two_by_two.mv")
      (map fst (journal Create w_offline s_signed)) /\
   thrown_by w_offline (CallFetch "/transfer_two_by_two.mv")
     = Some (ErrorObj "TypeError" "Failed to fetch") /\
   outcome Create w_offline s_signed
     = Val (Caught (ErrorObj "TypeError" "Failed to fetch")) /\
   relay (after Create w_offline s_signed) = relay s_signed) /\
  (In (CallSignTransaction "7478")
      (map fst (journal Countersign w_reject_undefined s_created)) /\
   thrown_by w_reject_undefined (CallSignTransaction "7478")
     = Some ThrownUndefined /\
   outcome Countersign w_reject_undefined s_created
     = Exn (ErrorObj "TypeError"
              "Cannot read properties of undefined (reading 'message')") /\
   relay (after Countersign w_reject_undefined s_created) = relay s_created /\
   exists l,
     (logs (after Countersign w_reject_undefined s_created)
      = (if clears_log Countersign w_reject_undefined then []
         else logs s_created) ++ l)%list /\
     forallb (fun entry => negb (is_error entry)) l = true).
Proof.
  split.
  - assert (Hin : In (CallFetch "/transfer_two_by_two.mv")
                     (map fst (journal Create w_offline s_signed))).
    { apply (nth_error_In _ 0). by_running. }
    split; [exact Hin | split; [reflexivity|]].
    destruct (failures_caught Create w_offline s_signed _ _ Hin eq_refl)
      as (Hrel & _ & Hcase).
    cbn [error_text] in Hcase. destruct Hcase as [Ho _].
    split; [exact Ho | exact Hrel].
  - assert (Hin : In (CallSignTransaction "7478")
                     (map fst (journal Countersign w_reject_undefined s_created))).
    { apply (nth_error_In _ 2). by_running. }
    split; [exact Hin | split; [reflexivity|]].
    destruct (failures_caught Countersign w_reject_undefined s_created _ _
                Hin eq_refl) as (Hrel & _ & Hcase).
    cbn [error_text] in Hcase. destruct Hcase as [Ho Hlog].
    split; [exact Ho | split; [exact Hrel | exact Hlog]].
Defined.

(** C3 as stated fails: Alice creates, Bob countersigns, Alice creates
    again.  The second Step 1 completes, the authenticator slot still holds
    Bob's signature over the first transaction, Step 3 is not rejected and
    submits the new transaction with that authenticator. *)
Lemma stale_authenticator_survives_create :
  outcome Create w_create initial = Val Completed /\
  outcome Countersign w_sign s_created = Val Completed /\
  outcome Create w_recreate s_signed = Val Completed /\
  serializedTransaction s_signed = "0x7478" /\
  serializedTransaction s_recreated = "0x9999" /\
  secondSignerSignature s_recreated = "0x5347" /\
  precondition Submit w_submit s_recreated = true /\
  nth_error (map fst (journal Submit w_submit s_recreated)) 5
    = Some (CallSubmitTransaction
              {| transaction := "9999";
                 senderAuthenticator := "a11c";
                 additionalSignersAuthenticators := ["5347"] |}).
Proof.
  repeat split; vm_compute; reflexivity.
Qed.

Lemma create_overwrites_transaction_only_witness :
  outcome Create w_recreate s_signed = Val Completed /\
  secondSignerSignature (after Create w_recreate s_signed)
    = secondSignerSignature s_signed.
Proof.
  split; [by_running|].
  destruct (create_overwrites_transaction_only w_recreate s_signed eq_refl)
    as [Hsig _].
  exact Hsig.
Defined.

(** C4 as stated fails: Alice's second Step 1 drops the entries that the
    first two steps had written. *)
Lemma create_discards_earlier_log :
  ~ exists l, (logs (after Create w_recreate s_signed) = logs s_signed ++ l)%list.
Proof.
  intros [l H]. vm_compute in H. discriminate H.
Qed.

Lemma log_appended_or_restarted_witness :
  clears_log Countersign w_sign = false /\
  clears_log Create w_recreate = true /\
  (exists l, (logs (after Countersign w_sign s_created) = logs s_created ++ l)%list) /\
  logs (after Create w_recreate s_signed)
    = logs (after Create w_recreate (forget_logs s_signed)).
Proof.
  split; [by_running | split; [by_running|]].
  split.
  - destruct (log_appended_or_restarted Countersign w_sign s_created) as [H _].
    exact (H eq_refl).
  - destruct (log_appended_or_restarted Create w_recreate s_signed) as [_ H].
    exact (H eq_refl).
Defined.



(** C6: Bob signs twice, the wallet answering [5347] and then [beef];
    Alice's Step 3 completes. *)
Lemma second_signature_is_consumed_witness :
  outcome Countersign w_sign s_created = Val Completed /\
  outcome Countersign w_sign_again (after Countersign w_sign s_created)
    = Val Completed /\
  secondSignerSignature
    (after Countersign w_sign_again (after Countersign w_sign s_created))
    = "0xbeef" /\
  outcome Submit w_submit
    (after Countersign w_sign_again (after Countersign w_sign s_created))
    = Val Completed /\
  exists t a2 h2,
    signTransaction w_sign_again t = Val a2 /\
    authenticator_bcsToHex a2 = Val h2 /\
    secondSignerSignature
      (after Countersign w_sign_again (after Countersign w_sign s_created))
      = authenticatorBcs h2 /\
    (forall req c,
       In (CallSubmitTransaction req, c)
          (journal Submit w_submit
             (after Countersign w_sign_again (after Countersign w_sign s_created))) ->
       exists bytes a,
         Hex_fromHexString (signatureHex (authenticatorBcs h2)) = Val bytes /\
         AccountAuthenticator_deserialize bytes = Val a /\
         additionalSignersAuthenticators req = [a]) /\
    (outcome Submit w_submit
       (after Countersign w_sign_again (after Countersign w_sign s_created))
       = Val Completed ->
     exists req c,
       In (CallSubmitTransaction req, c)
          (journal Submit w_submit
             (after Countersign w_sign_again (after Countersign w_sign s_created)))).
Proof.
  split; [by_running | split; [by_running | split; [by_running|]]].
  split; [by_running|].
  exact (second_signature_is_consumed w_sign w_sign_again w_submit s_created
           eq_refl eq_refl).
Defined.


(** C9: the state after Alice created and Bob countersigned. *)
Lemma authenticator_implies_transaction_witness :
  reachable s_signed /\
  secondSignerSignature s_signed <> "" /\
  serializedTransaction s_signed <> "".
Proof.
  assert (Hr : reachable s_signed).
  { apply reachable_step, reachable_step, reachable_initial. }
  assert (Hs : secondSignerSignature s_signed <> "").
  { vm_compute. discriminate. }
  split; [exact Hr | split; [exact Hs|]].
  exact (authenticator_implies_transaction s_signed mock_hex_nonempty Hr Hs).
Defined.

(** C10: Alice types Bob's address; the construction then fails. *)
Lemma address_stored_before_construction_witness :
  In (CallPrompt "Enter second signer address (0x...):")
     (map fst (journal Create w_build_fails initial)) /\
  promptAddress w_build_fails = Some "0xb0b" /\
  "0xb0b" <> "" /\
  outcome Create w_build_fails initial
    = Val (Caught (ErrorObj "Error" "Account not found")) /\
  secondSignerAddress (after Create w_build_fails initial) = "0xb0b" /\
  relay (after Create w_build_fails initial) = relay initial.
Proof.
  assert (Hin : In (CallPrompt "Enter second signer address (0x...):")
                   (map fst (journal Create w_build_fails initial))).
  { apply (nth_error_In _ 2). by_running. }
  assert (Hne : "0xb0b" <> "") by discriminate.
  assert (Ho : outcome Create w_build_fails initial
               = Val (Caught (ErrorObj "Error" "Account not found"))).
  { by_running. }
  split; [exact Hin | split; [reflexivity | split; [exact Hne|]]].
  split; [exact Ho|].
  destruct (address_stored_before_construction w_build_fails initial _ "0xb0b"
              Hin eq_refl Hne) as (Ha & _ & Hrel).
  split; [exact Ha|].
  apply Hrel. rewrite Ho. discriminate.
Defined.

End Runs.

(** ** Further concrete runs *)

Import Mock Scenario.

(** Closed equations between runs are settled by evaluation. *)
Ltac by_running := vm_compute; reflexivity.

(** X1: Bob's wallet refuses to sign; the flag is down again. *)
Lemma calls_made_while_loading_witness :
  precondition Countersign w_refuse s_created = true /\
  outcome Countersign w_refuse s_created
    = Val (Caught (ThrownString "User rejected the request")) /\
  loading (after Countersign w_refuse s_created) = false.
Proof.
  split; [by_running | split; [by_running|]].
  destruct (calls_made_while_loading Countersign w_refuse s_created) as [H _].
  destruct (H eq_refl) as [Hl _]. exact Hl.
Defined.


(** X3: and one call of [console.error]. *)
Lemma console_error_iff_caught_witness :
  outcome Countersign w_refuse s_created
    = Val (Caught (ThrownString "User rejected the request")) /\
  In (CallConsoleError (ThrownString "User rejected the request"))
     (map fst (journal Countersign w_refuse s_created)).
Proof.
  assert (Hc : outcome Countersign w_refuse s_created
               = Val (Caught (ThrownString "User rejected the request"))).
  { by_running. }
  split; [exact Hc|].
  apply (console_error_iff_caught Countersign w_refuse s_created). exact Hc.
Defined.

(** X4: the operator cancels the prompt, or confirms it empty. *)
Lemma unanswered_prompt_aborts_witness :
  connected w_cancel = true /\
  fetchScript w_cancel = Val [xa1; x1c; xeb] /\
  prompt_answered w_cancel = false /\
  prompt_answered w_blank = false /\
  outcome Create w_cancel s_signed = Val Aborted /\
  outcome Create w_blank s_signed = Val Aborted /\
  relay (after Create w_cancel s_signed) = relay s_signed.
Proof.
  split; [by_running | split; [by_running | split; [by_running|]]].
  split; [by_running|].
  destruct (unanswered_prompt_aborts w_cancel s_signed [xa1; x1c; xeb]
              eq_refl eq_refl) as [Hiff Hrest].
  destruct (unanswered_prompt_aborts w_blank s_signed [xa1; x1c; xeb]
              eq_refl eq_refl) as [Hiff' _].
  split; [apply Hiff; reflexivity|].
  split; [apply Hiff'; reflexivity|].
  destruct (Hrest eq_refl) as [Hrel _]. exact Hrel.
Defined.

(** X5: the request of Alice's Step 1. *)
Lemma build_request_contents_witness :
  In (CallBuildMultiAgent alice_request, snd alice_build_call)
     (journal Create w_create initial) /\
  (dateNow w_create + 299000 < 1000 * expireTimestamp alice_request
     <= dateNow w_create + 300000)%Z.
Proof.
  assert (Hin : In (CallBuildMultiAgent alice_request, snd alice_build_call)
                   (journal Create w_create initial)).
  { apply (nth_error_In _ 7). by_running. }
  split; [exact Hin|].
  destruct (build_request_contents w_create initial _ _ Hin)
    as (acct & addr & code & from & to & _ & _ & _ & _ & _ & _ & _ & Hb).
  exact Hb.
Defined.

(** X6: Bob's Step 2 asks the wallet. *)
Lemma calls_belong_to_stage_witness :
  In (CallSignTransaction "7478") (events Countersign w_sign s_created) /\
  allowed Countersign (CallSignTransaction "7478") = true /\
  precondition Countersign w_sign s_created = true.
Proof.
  assert (Hin : In (CallSignTransaction "7478")
                   (events Countersign w_sign s_created)).
  { apply (nth_error_In _ 2). by_running. }
  split; [exact Hin|].
  exact (calls_belong_to_stage Countersign w_sign s_created _ Hin).
Defined.

Lemma w_create_path : create_path w_create "7478" "0x7478".
Proof.
  exists alice, "0xb0b", [xa1; x1c; xeb], "0xa11ce", "0xb0b".
  repeat split.
Defined.

(** X7: Alice's Step 1. *)
Lemma create_completes_iff_answered_witness :
  create_path w_create "7478" "0x7478" /\
  outcome Create w_create initial = Val Completed /\
  relay (after Create w_create initial) = ("0x7478", "").
Proof.
  destruct (create_completes_iff_answered w_create initial)
    as (Hiff & Hslot & _).
  split; [exact w_create_path|].
  split.
  - apply Hiff. exists "7478", "0x7478". exact w_create_path.
  - exact (Hslot "7478" "0x7478" w_create_path).
Defined.

Lemma w_sign_path : countersign_path w_sign s_created "7478" "5347" "0x5347".
Proof.
  exists (list_byte_of_string "7478"). repeat split.
Defined.

(** X8: Bob's Step 2. *)
Lemma countersign_completes_iff_answered_witness :
  precondition Countersign w_sign s_created = true /\
  countersign_path w_sign s_created "7478" "5347" "0x5347" /\
  relay (after Countersign w_sign s_created) = ("0x7478", "0x5347").
Proof.
  destruct (countersign_completes_iff_answered w_sign s_created)
    as (_ & Hslot).
  split; [by_running | split; [exact w_sign_path|]].
  destruct (Hslot "7478" "5347" "0x5347" eq_refl w_sign_path) as [Hrel _].
  exact Hrel.
Defined.

Lemma w_failed_path :
  submit_path w_failed_on_chain s_signed "7478" "a11c" "5347" "0xfeed" false.
Proof.
  exists (list_byte_of_string "7478"), (list_byte_of_string "5347").
  repeat split.
Defined.

(** X9: the chain reports the transaction as failed; Step 3 completes. *)
Lemma submit_completes_iff_answered_witness :
  precondition Submit w_failed_on_chain s_signed = true /\
  submit_path w_failed_on_chain s_signed "7478" "a11c" "5347" "0xfeed" false /\
  outcome Submit w_failed_on_chain s_signed = Val Completed /\
  exists l e,
    (logs (after Submit w_failed_on_chain s_signed) = l ++ [e])%list /\
    text e = "Transaction confirmed: false".
Proof.
  destruct (submit_completes_iff_answered w_failed_on_chain s_signed)
    as (Hiff & Hrun).
  assert (Hp : precondition Submit w_failed_on_chain s_signed = true).
  { by_running. }
  split; [exact Hp | split; [exact w_failed_path|]].
  split.
  - apply Hiff. split; [exact Hp|].
    exists "7478", "a11c", "5347", "0xfeed", false. exact w_failed_path.
  - destruct (Hrun _ _ _ _ _ Hp w_failed_path) as (_ & _ & Hlog & _).
    exact Hlog.
Defined.

(** X10: Alice creates, Bob countersigns, Alice submits. *)
Lemma flow_composes_witness :
  outcome Create w_create initial = Val Completed /\
  outcome Countersign w_sign (after Create w_create initial) = Val Completed /\
  outcome Submit w_submit (after Countersign w_sign (after Create w_create initial))
    = Val Completed /\
  exists t a3 r,
    In (CallSubmitTransaction (submitRequest t a3 r))
       (events Submit w_submit
          (after Countersign w_sign (after Create w_create initial))).
Proof.
  assert (H1 : outcome Create w_create initial = Val Completed) by by_running.
  assert (H2 : outcome Countersign w_sign (after Create w_create initial)
               = Val Completed) by by_running.
  assert (H3 : outcome Submit w_submit
                 (after Countersign w_sign (after Create w_create initial))
               = Val Completed) by by_running.
  split; [exact H1 | split; [exact H2 | split; [exact H3|]]].
  destruct (flow_composes w_create w_sign w_submit initial H1 H2 H3)
    as (t1 & h1 & bytes & t & a2 & h2 & sigBytes & r & a3 & hash & success
        & _ & _ & _ & _ & _ & _ & _ & _ & _ & _ & Hin).
  exists t, a3, r. exact Hin.
Defined.

(** X11: what Alice's Step 3 submits, once. *)
Lemma submit_request_determined_witness :
  In (CallSubmitTransaction (submitRequest "7478" "a11c" "5347"))
     (events Submit w_submit s_signed) /\
  List.length (filter is_submission (events Submit w_submit s_signed)) <= 1 /\
  exists t a r, submitRequest "7478" "a11c" "5347" = submitRequest t a r.
Proof.
  assert (Hin : In (CallSubmitTransaction (submitRequest "7478" "a11c" "5347"))
                   (events Submit w_submit s_signed)).
  { apply (nth_error_In _ 5). by_running. }
  split; [exact Hin|].
  destruct (submit_request_determined w_submit s_signed) as (H & Hone & _).
  split; [exact Hone|].
  destruct (H _ Hin) as (txBytes & sigBytes & t & a & r & _ & _ & _ & _ & _ & Hreq).
  exists t, a, r. exact Hreq.
Defined.

(** X13: Mallory instead of Bob at Step 2. *)
Lemma signer_identity_not_checked_witness :
  outcome Countersign (with_account mallory w_sign) s_created = Val Completed /\
  relay (after Countersign (with_account mallory w_sign) s_created)
    = relay (after Countersign (with_account bob w_sign) s_created).
Proof.
  split; [by_running|].
  destruct (signer_identity_not_checked w_sign s_created mallory bob)
    as [(_ & _ & Hrel) _].
  exact Hrel.
Defined.

(** X15: an encoding without prefix. *)
Lemma stored_prefix_round_trip_witness :
  Js.startsWith "0x" "5347" = false /\
  signatureHex (authenticatorBcs "5347") = "5347".
Proof.
  split; [reflexivity|].
  destruct (stored_prefix_round_trip "5347") as (_ & _ & H & _).
  exact (H eq_refl).
Defined.

Lemma s_signed_reachable : reachable s_signed.
Proof.
  apply reachable_step, reachable_step, reachable_initial.
Defined.

(** X16: after Bob countersigned, Alice can click Step 3. *)
Lemma clickable_step_passes_guard_witness :
  reachable s_signed /\
  connected w_submit = true /\
  clickable (view true (account w_submit) (Some "Nightly") s_signed)
    (ClickStep Submit) = true /\
  precondition Submit w_submit s_signed = true.
Proof.
  assert (Hclick : clickable (view true (account w_submit) (Some "Nightly")
                                s_signed) (ClickStep Submit) = true).
  { by_running. }
  split; [exact s_signed_reachable | split; [reflexivity | split; [exact Hclick|]]].
  destruct (clickable_step_passes_guard true (Some "Nightly") w_submit s_signed
              Submit mock_hex_nonempty s_signed_reachable eq_refl Hclick)
    as [Hp _].
  exact Hp.
Defined.

(** X17: after the script could not be fetched, Step 1 can be clicked
    again. *)
Lemma buttons_follow_slots_witness :
  reachable (after Create w_offline initial) /\
  clickable (view true (Some alice) (Some "Nightly")
               (after Create w_offline initial)) (ClickStep Create) = true.
Proof.
  assert (Hr : reachable (after Create w_offline initial)).
  { apply reachable_step, reachable_initial. }
  split; [exact Hr|].
  destruct (buttons_follow_slots (Some alice) (Some "Nightly") _ Hr)
    as ((_ & H & _) & _ & _).
  exact H.
Defined.

(** X18: the entry of the failed fetch. *)
Lemma error_entries_shown_red_witness :
  let e := {| stamp := "10:00:00 AM"; text := "ERROR: Failed to fetch" |} in
  In e (logs (after Create w_offline initial)) /\
  is_error e = true /\
  logColor (render e) = "#ff6b6b".
Proof.
  intros e.
  assert (Hin : In e (logs (after Create w_offline initial))).
  { apply (nth_error_In _ 3). by_running. }
  split; [exact Hin | split; [reflexivity|]].
  destruct (error_entries_shown_red true (Some alice) (Some "Nightly")
              (after Create w_offline initial) e Hin eq_refl) as [Hred _].
  exact Hred.
Defined.

(** X19: a short stored value. *)
Lemma slot_display_witness :
  "0x7478" <> "" /\ slotLine "0x7478" = "0x7478...".
Proof.
  assert (Hne : "0x7478" <> "") by discriminate.
  split; [exact Hne|].
  destruct (slot_display "0x7478") as [_ H].
  destruct (H Hne) as (_ & _ & Hshort).
  apply Hshort. cbn. lia.
Defined.
